(** * jira_chatbot.py: a shallow embedding and its verified properties

    The program is a command-line assistant: a line typed by the user is
    normalised and routed ([process_command]); free text is turned into a
    JQL query by a language-model backend ([_generate_jql_from_natural_language],
    through [_get_ai_response]); the query is run by the issue tracker
    ([jira_jql_search], [jira_get_issue]) and the answer is rendered as text.

    Python [str] values are modelled as [string], each character a code
    point below 256 (Latin-1); [str.lower], [str.strip] and [repr] are
    Python's on all such text, [str.upper] on all of it but the two letters
    whose capitals lie above 255.  Exceptions are explicit: a computation
    returns [Ok v] or [Raise e] together with the new state. *)

From Stdlib Require Import List Bool Arith ZArith Lia Ascii String.
From Stdlib Require Import Numbers.DecimalString QArith.
Import ListNotations.

Close Scope Q_scope.
Open Scope list_scope.
Open Scope string_scope.

(** ** Python text operations *)

Module PyStr.

Definition chr (n : nat) : string := String (ascii_of_nat n) "".

Definition code (c : ascii) : nat := nat_of_ascii c.

(** [str.isspace] on one character, which is what [str.strip] removes:
    TAB, LF, VT, FF, CR, the four separators 0x1c-0x1f, the space, NEL
    (0x85) and the no-break space (0xa0). *)
Definition is_space (c : ascii) : bool :=
  let n := code c in
  ((9 <=? n) && (n <=? 13) || (28 <=? n) && (n <=? 32)
   || (n =? 133) || (n =? 160))%nat.

(** The capitals with a small letter: A-Z and 0xc0-0xde but the
    multiplication sign 0xd7. *)
Definition is_upper (c : ascii) : bool :=
  let n := code c in
  ((65 <=? n) && (n <=? 90)
   || (192 <=? n) && (n <=? 222) && negb (n =? 215))%nat.

(** The small letters with a capital 32 below them: a-z and 0xe0-0xfe but
    the division sign 0xf7. *)
Definition is_lower (c : ascii) : bool :=
  let n := code c in
  ((97 <=? n) && (n <=? 122)
   || (224 <=? n) && (n <=? 254) && negb (n =? 247))%nat.

Definition is_digit (c : ascii) : bool :=
  let n := code c in ((48 <=? n) && (n <=? 57))%nat.

Definition lower_char (c : ascii) : ascii :=
  if is_upper c then ascii_of_nat (code c + 32) else c.

Definition upper_char (c : ascii) : ascii :=
  if is_lower c then ascii_of_nat (code c - 32) else c.

Fixpoint map_chars (f : ascii -> ascii) (s : string) : string :=
  match s with
  | EmptyString => EmptyString
  | String c s' => String (f c) (map_chars f s')
  end.

(** [s.lower()] *)
Definition lower (s : string) : string := map_chars lower_char s.

(** The capital of one character as a text: the sharp s (0xdf) becomes
    [SS]. *)
Definition upper_text (c : ascii) : string :=
  if (code c =? 223)%nat then "SS" else String (upper_char c) "".

(** [s.upper()], for a text without the micro sign (0xb5) and the y with
    diaeresis (0xff): their capitals are U+039C and U+0178, which no
    character of [string] can be; here they are left as they are, and
    [upper_fits] tells the texts that hold neither. *)
Fixpoint upper (s : string) : string :=
  match s with
  | EmptyString => EmptyString
  | String c s' => upper_text c ++ upper s'
  end.

Fixpoint upper_fits (s : string) : bool :=
  match s with
  | EmptyString => true
  | String c s' => negb (code c =? 181)%nat && negb (code c =? 255)%nat && upper_fits s'
  end.

(** [s.lstrip()]: drop the leading whitespace. *)
Fixpoint lstrip (s : string) : string :=
  match s with
  | EmptyString => EmptyString
  | String c s' => if is_space c then lstrip s' else s
  end.

(** [s.rstrip()]: drop the trailing whitespace. *)
Fixpoint rstrip (s : string) : string :=
  match s with
  | EmptyString => EmptyString
  | String c s' =>
      match rstrip s' with
      | EmptyString => if is_space c then EmptyString else String c EmptyString
      | r => String c r
      end
  end.

(** [s.strip()] *)
Definition strip (s : string) : string := rstrip (lstrip s).

(** [s.startswith(p)] *)
Fixpoint startswith (p s : string) : bool :=
  match p, s with
  | EmptyString, _ => true
  | String a p', String b s' => Ascii.eqb a b && startswith p' s'
  | String _ _, EmptyString => false
  end.

(** [s[:n]] for a non-negative [n] *)
Fixpoint take (n : nat) (s : string) : string :=
  match n, s with
  | S n', String c s' => String c (take n' s')
  | _, _ => EmptyString
  end.

Fixpoint rev_onto (acc s : string) : string :=
  match s with
  | EmptyString => acc
  | String c s' => rev_onto (String c acc) s'
  end.

(** The pieces of [s.split(sep)] for a non-empty [sep]: the text is
    scanned from the left; where [sep] starts, the piece read so far
    ([cur], reversed) is closed and the separator is skipped ([skip]
    counts the characters of it still to pass). *)
Fixpoint split_go (sep : string) (skip : nat) (cur : string) (s : string)
  : list string :=
  match s with
  | EmptyString => [rev_onto "" cur]
  | String c s' =>
      match skip with
      | S k => split_go sep k cur s'
      | O =>
          if startswith sep s
          then rev_onto "" cur :: split_go sep (String.length sep - 1) "" s'
          else split_go sep 0 (String c cur) s'
      end
  end.

Definition split (sep s : string) : list string := split_go sep 0 "" s.

(** [sep.join(parts)] *)
Definition join (sep : string) (parts : list string) : string :=
  String.concat sep parts.

(** [x in xs] for a list of strings *)
Definition mem (x : string) (xs : list string) : bool :=
  existsb (String.eqb x) xs.

(** [sub in s] is not used by the program; it states what a message
    contains. *)
Definition contains (s sub : string) : Prop :=
  exists pre post, s = pre ++ sub ++ post.

(** [s] holds nothing but whitespace (or nothing at all). *)
Fixpoint blank (s : string) : bool :=
  match s with
  | EmptyString => true
  | String c s' => is_space c && blank s'
  end.

End PyStr.

(** ** Exceptions and results *)

(** The exceptions the program can meet.  [Failure] stands for whatever a
    collaborator raises (transport error, timeout, malformed reply, an
    undefined tool function); the others are raised by the Python runtime
    on the values the program handles.  Every one is an [Exception], so
    every [except Exception] of the source catches it. *)
Inductive exn : Type :=
| KeyError (key : string)
| TypeError (msg : string)
| AttributeError (msg : string)
| ValueError (msg : string)
| IndexError (msg : string)
| Failure (msg : string).

Inductive result (A : Type) : Type :=
| Ok (a : A)
| Raise (e : exn).

Arguments Ok {A} a.
Arguments Raise {A} e.

Definition rbind {A B} (r : result A) (k : A -> result B) : result B :=
  match r with
  | Ok a => k a
  | Raise e => Raise e
  end.

Declare Scope result_scope.
Delimit Scope result_scope with result.
Notation "x <- r ;; k" := (rbind r (fun x => k))
  (at level 61, r at next level, right associativity) : result_scope.

(** ** JSON values, as [json.loads] builds them (floats are not modelled) *)

#[local] Set Warnings "-register-all".

Inductive json : Type :=
| JNull
| JBool (b : bool)
| JNum (n : Z)
| JStr (s : string)
| JArr (items : list json)
| JObj (members : list (string * json)).

Module Py.
Import PyStr.

Definition nl : string := chr 10.

Definition type_name (v : json) : string :=
  match v with
  | JNull => "NoneType"
  | JBool _ => "bool"
  | JNum _ => "int"
  | JStr _ => "str"
  | JArr _ => "list"
  | JObj _ => "dict"
  end.

(** [bool(v)] *)
Definition truthy (v : json) : bool :=
  match v with
  | JNull => false
  | JBool b => b
  | JNum n => negb (Z.eqb n 0)
  | JStr s => negb (String.eqb s "")
  | JArr l => match l with [] => false | _ => true end
  | JObj m => match m with [] => false | _ => true end
  end.

Fixpoint lookup (k : string) (m : list (string * json)) : option json :=
  match m with
  | [] => None
  | (k', v) :: m' => if String.eqb k k' then Some v else lookup k m'
  end.

(** [v[k]] for a string key [k] (the [TypeError] texts are CPython's). *)
Definition subscript (v : json) (k : string) : result json :=
  match v with
  | JObj m =>
      match lookup k m with
      | Some x => Ok x
      | None => Raise (KeyError k)
      end
  | JArr _ => Raise (TypeError "list indices must be integers or slices, not str")
  | JStr _ => Raise (TypeError "string indices must be integers, not 'str'")
  | _ => Raise (TypeError ("'" ++ type_name v ++ "' object is not subscriptable"))
  end.

(** [v.get(k, default)] *)
Definition get_default (v : json) (k : string) (default : json) : result json :=
  match v with
  | JObj m =>
      match lookup k m with
      | Some x => Ok x
      | None => Ok default
      end
  | _ => Raise (AttributeError ("'" ++ type_name v ++ "' object has no attribute 'get'"))
  end.

(** [v.get(k)] *)
Definition get (v : json) (k : string) : result json := get_default v k JNull.

(** [len(v)] *)
Definition len (v : json) : result Z :=
  match v with
  | JStr s => Ok (Z.of_nat (String.length s))
  | JArr l => Ok (Z.of_nat (List.length l))
  | JObj m => Ok (Z.of_nat (List.length m))
  | _ => Raise (TypeError ("object of type '" ++ type_name v ++ "' has no len()"))
  end.

Fixpoint chars (s : string) : list json :=
  match s with
  | EmptyString => []
  | String c s' => JStr (String c "") :: chars s'
  end.

(** The values a [for x in v] loop visits. *)
Definition iterate (v : json) : result (list json) :=
  match v with
  | JArr l => Ok l
  | JStr s => Ok (chars s)
  | JObj m => Ok (map (fun kv => JStr (fst kv)) m)
  | _ => Raise (TypeError ("'" ++ type_name v ++ "' object is not iterable"))
  end.

Definition dec (n : Z) : string := NilZero.string_of_int (Z.to_int n).

Fixpoint has_char (c : ascii) (s : string) : bool :=
  match s with
  | EmptyString => false
  | String d s' => Ascii.eqb c d || has_char c s'
  end.

Definition hex_digit (n : nat) : string :=
  chr (if (n <? 10)%nat then 48 + n else 87 + n).

Definition escape_char (quote c : ascii) : string :=
  let n := code c in
  if Ascii.eqb c quote || Ascii.eqb c "\"%char then String "\"%char (String c "")
  else if (n =? 9)%nat then "\t"
  else if (n =? 10)%nat then "\n"
  else if (n =? 13)%nat then "\r"
  else if ((n <? 32) || (127 <=? n) && (n <=? 160) || (n =? 173))%nat
       then "\x" ++ hex_digit (n / 16) ++ hex_digit (n mod 16)
  else String c "".

Fixpoint escape (quote : ascii) (s : string) : string :=
  match s with
  | EmptyString => EmptyString
  | String c s' => escape_char quote c ++ escape quote s'
  end.

(** [repr(s)] of a string: single quotes, unless the text holds a single
    quote and no double quote. *)
Definition repr_str (s : string) : string :=
  let quote : ascii :=
    if has_char "'"%char s && negb (has_char (ascii_of_nat 34) s)
    then ascii_of_nat 34 else "'"%char in
  String quote (escape quote s) ++ String quote "".

(** [repr(v)] *)
Fixpoint repr (v : json) : string :=
  match v with
  | JNull => "None"
  | JBool true => "True"
  | JBool false => "False"
  | JNum n => dec n
  | JStr s => repr_str s
  | JArr l => "[" ++ join ", " (map repr l) ++ "]"
  | JObj m =>
      "{" ++ join ", " (map (fun kv => repr_str (fst kv) ++ ": " ++ repr (snd kv)) m) ++ "}"
  end.

(** [str(v)], which is also how an f-string renders [{v}]. *)
Definition str (v : json) : string :=
  match v with
  | JStr s => s
  | _ => repr v
  end.

(** [str(e)] *)
Definition str_exn (e : exn) : string :=
  match e with
  | KeyError k => repr_str k
  | TypeError m | AttributeError m | ValueError m | IndexError m | Failure m => m
  end.

End Py.

(** colorama's escape sequences *)
Module Fore.
Definition esc : string := PyStr.chr 27.
Definition RED : string := esc ++ "[31m".
Definition GREEN : string := esc ++ "[32m".
Definition YELLOW : string := esc ++ "[33m".
Definition CYAN : string := esc ++ "[36m".
End Fore.

Module Style.
Definition RESET_ALL : string := Fore.esc ++ "[0m".
End Style.

(** ** [datetime.strptime] and [strftime] for the two formats of the program *)

Module Datetime.
Import PyStr.

Record datetime : Type := mk_datetime {
  year : nat; month : nat; day : nat;
  hour : nat; minute : nat; second : nat
}.

(** A regular expression as a backtracking matcher: all the ways to match
    a prefix of the text, in the order the [re] engine tries them, each
    with the value read and the text left. *)
Definition parser (A : Type) : Type := string -> list (A * string).

Definition pret {A} (a : A) : parser A := fun s => [(a, s)].

Definition pbind {A B} (p : parser A) (k : A -> parser B) : parser B :=
  fun s => flat_map (fun ar => k (fst ar) (snd ar)) (p s).

Definition palt {A} (ps : list (parser A)) : parser A :=
  fun s => flat_map (fun p => p s) ps.

Notation "x <~ p ;; k" := (pbind p (fun x => k))
  (at level 61, p at next level, right associativity).

(** [[lo-hi]] for two digits [lo], [hi]; [\d] is [digit_in 0 9]. *)
Definition digit_in (lo hi : nat) : parser nat := fun s =>
  match s with
  | String c r =>
      let n := code c - 48 in
      if (is_digit c && (lo <=? n) && (n <=? hi))%nat then [(n, r)] else []
  | EmptyString => []
  end.

(** A literal character of the format; the pattern is compiled with
    [re.IGNORECASE]. *)
Definition lit (a : ascii) : parser unit := fun s =>
  match s with
  | String c r => if Ascii.eqb (lower_char c) (lower_char a) then [(tt, r)] else []
  | EmptyString => []
  end.

(** Two characters read as a number, as [int] reads them. *)
Definition pair_of (p q : parser nat) : parser nat :=
  a <~ p ;; b <~ q ;; pret (10 * a + b).

(** [(?P<Y>\d\d\d\d)] *)
Definition re_Y : parser nat :=
  a <~ digit_in 0 9 ;; b <~ digit_in 0 9 ;; c <~ digit_in 0 9 ;; d <~ digit_in 0 9 ;;
  pret (1000 * a + 100 * b + 10 * c + d).

(** [(?P<m>1[0-2]|0[1-9]|[1-9])] *)
Definition re_m : parser nat :=
  palt [pair_of (digit_in 1 1) (digit_in 0 2);
        pair_of (digit_in 0 0) (digit_in 1 9);
        digit_in 1 9].

(** [(?P<d>3[0-1]|[1-2]\d|0[1-9]|[1-9]| [1-9])] *)
Definition re_d : parser nat :=
  palt [pair_of (digit_in 3 3) (digit_in 0 1);
        pair_of (digit_in 1 2) (digit_in 0 9);
        pair_of (digit_in 0 0) (digit_in 1 9);
        digit_in 1 9;
        (_ <~ lit " " ;; digit_in 1 9)].

(** [(?P<H>2[0-3]|[0-1]\d|\d)] *)
Definition re_H : parser nat :=
  palt [pair_of (digit_in 2 2) (digit_in 0 3);
        pair_of (digit_in 0 1) (digit_in 0 9);
        digit_in 0 9].

(** [(?P<M>[0-5]\d|\d)] *)
Definition re_M : parser nat :=
  palt [pair_of (digit_in 0 5) (digit_in 0 9);
        digit_in 0 9].

(** [(?P<S>6[0-1]|[0-5]\d|\d)] *)
Definition re_S : parser nat :=
  palt [pair_of (digit_in 6 6) (digit_in 0 1);
        pair_of (digit_in 0 5) (digit_in 0 9);
        digit_in 0 9].

(** The pattern of ['%Y-%m-%dT%H:%M:%S'] *)
Definition re_iso : parser datetime :=
  y <~ re_Y ;; _ <~ lit "-" ;; m <~ re_m ;; _ <~ lit "-" ;; d <~ re_d ;;
  _ <~ lit "T" ;;
  h <~ re_H ;; _ <~ lit ":" ;; mi <~ re_M ;; _ <~ lit ":" ;; sec <~ re_S ;;
  pret (mk_datetime y m d h mi sec).

Definition is_leap (y : nat) : bool :=
  ((y mod 4 =? 0) && (negb (y mod 100 =? 0) || (y mod 400 =? 0)))%nat.

Definition days_in_month (y m : nat) : nat :=
  match m with
  | 2 => if is_leap y then 29 else 28
  | 4 | 6 | 9 | 11 => 30
  | _ => 31
  end.

(** [datetime.strptime(s, '%Y-%m-%dT%H:%M:%S')]: the first match of the
    pattern at the start of [s] must use all of [s]; then the date and
    the time must exist.  The wording of the [ValueError]s changes with
    the Python version; the program never shows it. *)
Definition strptime_iso (s : string) : result datetime :=
  match re_iso s with
  | [] => Raise (ValueError ("time data " ++ Py.repr_str s
                              ++ " does not match format '%Y-%m-%dT%H:%M:%S'"))
  | (dt, rest) :: _ =>
      if negb (String.eqb rest "")
      then Raise (ValueError ("unconverted data remains: " ++ rest))
      else if (year dt =? 0)%nat
      then Raise (ValueError "year 0 is out of range")
      else if (days_in_month (year dt) (month dt) <? day dt)%nat
      then Raise (ValueError "day is out of range for month")
      else if (59 <? second dt)%nat
      then Raise (ValueError "second must be in 0..59")
      else Ok dt
  end.

Definition digit (n : nat) : string := chr (48 + n mod 10).

Definition pad2 (n : nat) : string := digit (n / 10) ++ digit n.

Definition pad4 (n : nat) : string :=
  digit (n / 1000) ++ digit (n / 100) ++ digit (n / 10) ++ digit n.

(** A year without leading zeros *)
Definition unpadded (n : nat) : string :=
  if (n <? 10)%nat then digit n
  else if (n <? 100)%nat then digit (n / 10) ++ digit n
  else if (n <? 1000)%nat then digit (n / 100) ++ digit (n / 10) ++ digit n
  else pad4 n.

(** [dt.strftime('%Y-%m-%d %H:%M:%S')].  The C library decides whether
    [%Y] pads a year below 1000 with zeros ([pad_year]). *)
Definition strftime_display (pad_year : bool) (dt : datetime) : string :=
  (if pad_year then pad4 (year dt) else unpadded (year dt))
  ++ "-" ++ pad2 (month dt) ++ "-" ++ pad2 (day dt)
  ++ " " ++ pad2 (hour dt) ++ ":" ++ pad2 (minute dt) ++ ":" ++ pad2 (second dt).

End Datetime.

(** ** The session: conversation history and the calls made *)

Inductive role : Type := system | user | assistant.

(** One message, [{"role": r, "content": c}] *)
Record turn : Type := mk_turn { turn_role : role; content : string }.

(** The arguments of [openai.ChatCompletion.create] *)
Record chat_request : Type := mk_request {
  model : string;
  messages : list turn;
  temperature : Q;
  max_tokens : nat
}.

(** What the program does to the outside, in the order it does it. *)
Inductive event : Type :=
| EvChat (req : chat_request)
| EvSearch (jql : string) (fields : list string)
| EvGetIssue (issue_key : string) (fields : list string)
| EvPrint (line : string).

(** [conversation_history] is the attribute of [JiraChatbot]; [log] is
    bookkeeping of the model, the events so far, oldest first. *)
Record state : Type := mk_state {
  conversation_history : list turn;
  log : list event
}.

(** A computation on the session that may raise. *)
Definition M (A : Type) : Type := state -> result A * state.

Definition ret {A} (a : A) : M A := fun st => (Ok a, st).

Definition raise {A} (e : exn) : M A := fun st => (Raise e, st).

Definition bind {A B} (m : M A) (k : A -> M B) : M B :=
  fun st =>
    match m st with
    | (Ok a, st') => k a st'
    | (Raise e, st') => (Raise e, st')
    end.

(** [try: m except Exception as e: h e]; what [m] did to the session before
    it raised stays done. *)
Definition try_except {A} (m : M A) (h : exn -> M A) : M A :=
  fun st =>
    match m st with
    | (Ok a, st') => (Ok a, st')
    | (Raise e, st') => h e st'
    end.

Definition lift {A} (r : result A) : M A := fun st => (r, st).

Definition emit (ev : event) : M unit :=
  fun st => (Ok tt, mk_state (conversation_history st) (log st ++ [ev])%list).

Definition print (line : string) : M unit := emit (EvPrint line).

Definition get_history : M (list turn) :=
  fun st => (Ok (conversation_history st), st).

(** [self.conversation_history.append(t)] *)
Definition append_history (t : turn) : M unit :=
  fun st => (Ok tt, mk_state (conversation_history st ++ [t])%list (log st)).

Declare Scope M_scope.
Delimit Scope M_scope with M.
Notation "x <- m ;; k" := (bind m (fun x => k))
  (at level 61, m at next level, right associativity) : M_scope.
Notation "m ;;; k" := (bind m (fun _ => k))
  (at level 61, right associativity) : M_scope.

(** [l[start:]] for a Python list, [start] of either sign. *)
Definition slice_from {A} (start : Z) (l : list A) : list A :=
  let n := Z.of_nat (List.length l) in
  let first := if (start <? 0)%Z then Z.max (n + start) 0 else Z.min start n in
  skipn (Z.to_nat first) l.

Fixpoint repeat_str (s : string) (n : nat) : string :=
  match n with
  | O => EmptyString
  | S n' => s ++ repeat_str s n'
  end.

(** ** The program *)

Definition DEFAULT_JQL : string := "assignee = currentUser() ORDER BY created DESC".

Definition dq : string := PyStr.chr 34.

(** The triple-quoted [system_prompt] of [_generate_jql_from_natural_language] *)
Definition jql_system_prompt : string :=
  let ind := "        " in
  PyStr.join Py.nl
    [ "";
       ind ++ "You are a Jira query expert. Convert natural language queries to JQL (Jira Query Language).";
       ind ++ "Only respond with the JQL query, nothing else.";
       ind ++ "Examples:";
       ind ++ "Input: " ++ dq ++ "show me all high priority bugs assigned to me" ++ dq;
       ind ++ "Output: assignee = currentUser() AND priority = High AND type = Bug ORDER BY created DESC";
       ind ++ "Input: " ++ dq ++ "what are my open tasks" ++ dq;
       ind ++ "Output: assignee = currentUser() AND status = " ++ dq ++ "Open" ++ dq ++ " ORDER BY created DESC";
       ind ++ "Input: " ++ dq ++ "show my latest issues" ++ dq;
       ind ++ "Output: assignee = currentUser() ORDER BY created DESC";
       ind ++ "Input: " ++ dq ++ "find issues created today" ++ dq;
       ind ++ "Output: assignee = currentUser() AND created >= startOfDay() ORDER BY created DESC";
       ind ].

Definition default_system_prompt : string := "You are a helpful Jira assistant.".

Definition search_fields : list string :=
  ["summary"; "status"; "priority"; "created"; "updated"; "description"]%list.

Definition detail_fields : list string :=
  ["summary"; "status"; "priority"; "description"; "created"; "updated"]%list.

(** The [messages] list of [_get_ai_response] (source lines 43-47): the
    system turn, the last five turns of the history, the new user turn. *)
Definition build_messages (system_prompt : string) (history : list turn)
  (prompt : string) : list turn :=
  ([mk_turn system system_prompt]
     ++ slice_from (-5) history
     ++ [mk_turn user prompt])%list.

Definition chat_request_of (msgs : list turn) : chat_request :=
  mk_request "gpt-3.5-turbo" msgs (7 # 10)%Q 150.

(** The first line of a listing, source line 131 *)
Definition listing_header (total : json) : string :=
  Fore.GREEN ++ "Found " ++ Py.str total ++ " issue(s):" ++ Style.RESET_ALL.

Definition no_issues_message : string :=
  Fore.YELLOW ++ "No issues found matching your query." ++ Style.RESET_ALL.

Definition not_found_message (issue_key : string) : string :=
  Fore.RED ++ "Issue " ++ issue_key ++ " not found." ++ Style.RESET_ALL.

Definition _get_help : string :=
  PyStr.join Py.nl
    [ Py.nl ++ Fore.GREEN ++ "Available commands:" ++ Style.RESET_ALL;
      "1. Basic commands:";
      "   - my issues: Show all issues assigned to you";
      "   - details [ISSUE-KEY]: Show detailed information about a specific issue";
      "   - help: Show this help message";
      "   - exit: Exit the chatbot";
      "";
      "2. Natural language queries (examples):";
      "   - show me my high priority tasks";
      "   - what issues are in To Do status";
      "   - show my latest created issues";
      "   - find issues created today";
      "";
      Fore.YELLOW ++ "Tip: You can ask about your issues in plain English!" ++ Style.RESET_ALL
    ].

(** The collaborators of the program and what the platform decides.
    [chat_completion] is [openai.ChatCompletion.create] followed by
    [.choices[0].message.content]: the text of the completion, or the
    exception of a failed or malformed exchange.  The two [mcp_] functions
    are the tracker's tools, which the file calls and does not define. *)
Record environment : Type := mk_environment {
  chat_completion : chat_request -> result string;
  mcp_jira_mcp_jql_search : string -> list string -> result json;
  mcp_jira_mcp_get_issue : string -> list string -> result json;
  json_loads : string -> result json;
  strftime_pads_year : bool
}.

Section Program.

Variable env : environment.

Local Open Scope M_scope.

(** Source lines 18-20 and 29-31: a reply that is a string is decoded as
    JSON text, any other reply is the value itself. *)
Definition decode (response : json) : result json :=
  match response with
  | JStr text => json_loads env text
  | _ => Ok response
  end.

(** [jira_jql_search], source lines 14-23 *)
Definition jira_jql_search (jql : string) (fields : list string) : M json :=
  try_except
    (emit (EvSearch jql fields) ;;;
     response <- lift (mcp_jira_mcp_jql_search env jql fields) ;;
     lift (decode response))
    (fun e =>
       print (Fore.RED ++ "Error in JQL search: " ++ Py.str_exn e ++ Style.RESET_ALL) ;;;
       ret (JObj [("issues", JArr [])])).

(** [jira_get_issue], source lines 25-34 *)
Definition jira_get_issue (issue_key : string) (fields : list string) : M json :=
  try_except
    (emit (EvGetIssue issue_key fields) ;;;
     response <- lift (mcp_jira_mcp_get_issue env issue_key fields) ;;
     lift (decode response))
    (fun e =>
       print (Fore.RED ++ "Error getting issue: " ++ Py.str_exn e ++ Style.RESET_ALL) ;;;
       ret JNull).

(** [_get_ai_response], source lines 40-61 *)
Definition _get_ai_response (prompt system_prompt : string) : M string :=
  try_except
    (history <- get_history ;;
     let req := chat_request_of (build_messages system_prompt history prompt) in
     emit (EvChat req) ;;;
     ai_response <- lift (chat_completion env req) ;;
     append_history (mk_turn user prompt) ;;;
     append_history (mk_turn assistant ai_response) ;;;
     ret ai_response)
    (fun e => ret (Py.str_exn e)).

(** [_generate_jql_from_natural_language], source lines 63-84 *)
Definition _generate_jql_from_natural_language (query : string) : M string :=
  try_except
    (response <- _get_ai_response query jql_system_prompt ;;
     ret (PyStr.strip response))
    (fun e =>
       print (Fore.RED ++ "Error generating JQL: " ++ Py.str_exn e ++ Style.RESET_ALL) ;;;
       ret DEFAULT_JQL).

(** [_format_date], source lines 86-92 *)
Definition _format_date (date_str : string) : result string :=
  match
    (dt <- Datetime.strptime_iso (PyStr.take 19 date_str) ;;
     Ok (Datetime.strftime_display (strftime_pads_year env) dt))%result
  with
  | Ok text => Ok text
  | Raise _ => Ok date_str
  end.

(** [{self._format_date(v)}] for a field [v] of an issue: on a value that
    is no string the [try] block of [_format_date] raises a [TypeError]
    (nothing but a string can be parsed), the value comes back as it is
    and the f-string renders it. *)
Definition format_date_field (v : json) : result string :=
  match v with
  | JStr date_str => _format_date date_str
  | _ => Ok (Py.str v)
  end.

Definition label (name : string) : string :=
  Fore.CYAN ++ name ++ Style.RESET_ALL ++ " ".

(** [issue['fields'][name]] *)
Definition field (issue : json) (name : string) : result json :=
  (fields <- Py.subscript issue "fields" ;; Py.subscript fields name)%result.

(** [issue['fields'][name]['name']] *)
Definition field_name (issue : json) (name : string) : result json :=
  (v <- field issue name ;; Py.subscript v "name")%result.

(** [_format_issue_display], source lines 94-107 *)
Definition _format_issue_display (issue : json) (include_description : bool)
  : result string :=
  (key <- Py.subscript issue "key" ;;
   summary <- field issue "summary" ;;
   status <- field_name issue "status" ;;
   priority <- field_name issue "priority" ;;
   created_raw <- field issue "created" ;;
   created <- format_date_field created_raw ;;
   updated_raw <- field issue "updated" ;;
   updated <- format_date_field updated_raw ;;
   let result_lines :=
     [ Py.nl ++ label "Issue Key:" ++ Py.str key;
       label "Summary:" ++ Py.str summary;
       label "Status:" ++ Py.str status;
       label "Priority:" ++ Py.str priority;
       label "Created:" ++ created;
       label "Updated:" ++ updated ] in
   described <-
     (if include_description
      then fields <- Py.subscript issue "fields" ;;
           d <- Py.get fields "description" ;;
           Ok (Py.truthy d)
      else Ok false) ;;
   if described
   then description <- field issue "description" ;;
        Ok (PyStr.join Py.nl
              (List.app result_lines [label "Description:" ++ Py.str description]))
   else Ok (PyStr.join Py.nl result_lines))%result.

(** The body of the [for issue in issues] loop of [get_my_issues]: a
    block and a rule of fifty dashes for each issue. *)
Fixpoint issue_blocks (issues : list json) : result (list string) :=
  match issues with
  | [] => Ok []
  | issue :: rest =>
      (block <- _format_issue_display issue false ;;
       blocks <- issue_blocks rest ;;
       Ok (block :: repeat_str "-" 50 :: blocks))%result
  end.

(** The query of [get_my_issues], source lines 113-117.  [natural_query]
    is [None] or a string; the empty string is as false as [None]. *)
Definition select_jql (natural_query : option string) : M string :=
  match natural_query with
  | Some query =>
      if String.eqb query ""
      then ret DEFAULT_JQL
      else
        jql <- _generate_jql_from_natural_language query ;;
        print (Fore.YELLOW ++ "Generated JQL:" ++ Style.RESET_ALL ++ " " ++ jql) ;;;
        ret jql
  | None => ret DEFAULT_JQL
  end.

(** What [get_my_issues] makes of the response, source lines 125-137;
    no step of it touches the session. *)
Definition render_listing (response : json) : result string :=
  (nothing <-
     (if negb (Py.truthy response)
      then Ok true
      else found <- Py.get response "issues" ;; Ok (negb (Py.truthy found))) ;;
   if (nothing : bool)
   then Ok no_issues_message
   else
     issues <- Py.get_default response "issues" (JArr []) ;;
     count <- Py.len issues ;;
     total <- Py.get_default response "total" (JNum count) ;;
     items <- Py.iterate issues ;;
     blocks <- issue_blocks items ;;
     Ok (PyStr.join Py.nl (listing_header total :: blocks)))%result.

(** [get_my_issues], source lines 109-140 *)
Definition get_my_issues (natural_query : option string) : M string :=
  try_except
    (jql <- select_jql natural_query ;;
     response <- jira_jql_search jql search_fields ;;
     lift (render_listing response))
    (fun e =>
       ret (Fore.RED ++ "Error fetching issues: " ++ Py.str_exn e ++ Style.RESET_ALL)).

(** What [get_issue_details] makes of the response, source lines 151-156 *)
Definition render_details (issue_key : string) (response : json) : result string :=
  if negb (Py.truthy response)
  then Ok (not_found_message issue_key)
  else
    (block <- _format_issue_display response true ;;
     Ok (PyStr.join Py.nl
           [ Fore.GREEN ++ "Details for issue " ++ issue_key ++ ":" ++ Style.RESET_ALL;
             block ]))%result.

(** [get_issue_details], source lines 142-159 *)
Definition get_issue_details (issue_key : string) : M string :=
  try_except
    (response <- jira_get_issue issue_key detail_fields ;;
     lift (render_details issue_key response))
    (fun e =>
       ret (Fore.RED ++ "Error fetching issue details: " ++ Py.str_exn e
              ++ Style.RESET_ALL)).

(** The routing of [process_command] on the normalised line, source
    lines 165-176 *)
Definition dispatch (command : string) : M string :=
  if PyStr.mem command ["my issues"; "show my issues"; "list issues"]
  then get_my_issues None
  else if PyStr.startswith "details " command
  then
    match nth_error (PyStr.split "details " command) 1 with
    | Some piece => get_issue_details (PyStr.upper (PyStr.strip piece))
    | None => raise (IndexError "list index out of range")
    end
  else if PyStr.mem command ["help"; "?"]
  then ret _get_help
  else if PyStr.mem command ["exit"; "quit"; "bye"]
  then ret "exit"
  else get_my_issues (Some command).

(** [process_command], source lines 161-176 *)
Definition process_command (command : string) : M string :=
  let command := PyStr.strip (PyStr.lower command) in
  dispatch command.

End Program.

(** ** Sessions to run the program on *)

Module Examples.

Definition issue_abc1 : json :=
  JObj [("key", JStr "ABC-1");
        ("fields",
         JObj [("summary", JStr "Fix the login page");
               ("status", JObj [("name", JStr "Open")]);
               ("priority", JObj [("name", JStr "High")]);
               ("created", JStr "2024-01-05T10:00:00.000+0000");
               ("updated", JStr "2024-01-06T08:30:15.000+0000");
               ("description", JStr "Users cannot log in.")])].

Definition no_json (text : string) : result json :=
  Raise (ValueError "Expecting value: line 1 column 1 (char 0)").

(** A tracker that knows the one issue ABC-1 and lists it for every
    query. *)
Definition tracker_search (jql : string) (fields : list string) : result json :=
  Ok (JObj [("issues", JArr [issue_abc1]); ("total", JNum 1)]).

Definition tracker_get (issue_key : string) (fields : list string) : result json :=
  if String.eqb issue_key "ABC-1" then Ok issue_abc1 else Ok JNull.

(** A tracker with no issue at all *)
Definition empty_search (jql : string) (fields : list string) : result json :=
  Ok (JObj [("issues", JArr []); ("total", JNum 0)]).

(** The backend answers with a query. *)
Definition env_up : environment :=
  mk_environment
    (fun _ => Ok " assignee = currentUser() AND type = Bug ")
    tracker_search tracker_get no_json true.

(** The backend cannot be reached. *)
Definition env_down : environment :=
  mk_environment
    (fun _ => Raise (Failure "Connection timed out"))
    tracker_search tracker_get no_json true.

(** The backend answers with nothing but spaces. *)
Definition env_blank : environment :=
  mk_environment (fun _ => Ok "   ") tracker_search tracker_get no_json true.

(** The backend answers with a query between a no-break space and a NEL. *)
Definition env_edged : environment :=
  mk_environment
    (fun _ => Ok (PyStr.chr 160 ++ "project = ABC" ++ PyStr.chr 133))
    tracker_search tracker_get no_json true.

(** The tracker finds nothing. *)
Definition env_empty : environment :=
  mk_environment
    (fun _ => Ok "project = NONE")
    empty_search (fun _ _ => Ok JNull) no_json true.

(** The tracker's tools fail. *)
Definition env_offline : environment :=
  mk_environment
    (fun _ => Ok "project = NONE")
    (fun _ _ => Raise (Failure "name 'mcp_jira_mcp_jql_search' is not defined"))
    (fun _ _ => Raise (Failure "name 'mcp_jira_mcp_get_issue' is not defined"))
    no_json false.

Definition fresh : state := mk_state [] [].

Definition said (n : nat) : turn := mk_turn user (Py.dec (Z.of_nat n)).

(** A session with seven turns behind it *)
Definition seven_turns : state :=
  mk_state (map said [1; 2; 3; 4; 5; 6; 7]%nat) [].

End Examples.

(** * Properties *)

(** ** Text operations *)

Module PyStrFacts.
Import PyStr.

Ltac each_char c := destruct c as [[] [] [] [] [] [] [] []].

Lemma is_space_lower_char (c : ascii) : is_space (lower_char c) = is_space c.
Proof. each_char c; reflexivity. Qed.

Lemma lower_char_idem (c : ascii) : lower_char (lower_char c) = lower_char c.
Proof. each_char c; reflexivity. Qed.

Lemma lower_idem (s : string) : lower (lower s) = lower s.
Proof.
  unfold lower. induction s as [|c s IH]; cbn [map_chars]; [reflexivity|].
  now rewrite lower_char_idem, IH.
Qed.

Lemma lstrip_lower (s : string) : lstrip (lower s) = lower (lstrip s).
Proof.
  unfold lower. induction s as [|c s IH]; cbn [map_chars lstrip]; [reflexivity|].
  rewrite is_space_lower_char. destruct (is_space c); [exact IH | reflexivity].
Qed.

Lemma rstrip_lower (s : string) : rstrip (lower s) = lower (rstrip s).
Proof.
  unfold lower. induction s as [|c s IH]; cbn [map_chars rstrip]; [reflexivity|].
  rewrite IH.
  destruct (rstrip s); cbn [map_chars].
  - rewrite is_space_lower_char. destruct (is_space c); reflexivity.
  - reflexivity.
Qed.

Lemma strip_lower (s : string) : strip (lower s) = lower (strip s).
Proof. unfold strip. now rewrite lstrip_lower, rstrip_lower. Qed.

Lemma rstrip_idem (s : string) : rstrip (rstrip s) = rstrip s.
Proof.
  induction s as [|c s IH]; simpl; [reflexivity|].
  destruct (rstrip s) as [|d r] eqn:E.
  - destruct (is_space c) eqn:Ec; simpl; [reflexivity | now rewrite Ec].
  - change (rstrip (String c (String d r)))
      with (match rstrip (String d r) with
            | EmptyString => if is_space c then EmptyString else String c EmptyString
            | String _ _ as r' => String c r'
            end).
    now rewrite IH.
Qed.

Lemma lstrip_length (s : string) : String.length (lstrip s) <= String.length s.
Proof.
  induction s as [|c s IH]; simpl; [lia|].
  destruct (is_space c); simpl; lia.
Qed.

(** A text is left-stripped when it is empty or starts with a visible
    character. *)
Definition lstripped (s : string) : Prop :=
  match s with
  | EmptyString => True
  | String c _ => is_space c = false
  end.

Lemma lstrip_lstripped (s : string) : lstripped (lstrip s).
Proof.
  induction s as [|c s IH]; simpl; [exact I|].
  destruct (is_space c) eqn:Ec; [exact IH | exact Ec].
Qed.

Lemma lstripped_fixed (s : string) : lstripped s -> lstrip s = s.
Proof. destruct s as [|c s]; simpl; [reflexivity|]. now intros ->. Qed.

Lemma rstrip_lstripped (s : string) : lstripped s -> lstripped (rstrip s).
Proof.
  destruct s as [|c s]; simpl; [trivial|]. intros Hc.
  destruct (rstrip s); simpl; [now rewrite Hc | exact Hc].
Qed.

Lemma strip_idem (s : string) : strip (strip s) = strip s.
Proof.
  unfold strip.
  rewrite (lstripped_fixed (rstrip (lstrip s))).
  - apply rstrip_idem.
  - apply rstrip_lstripped, lstrip_lstripped.
Qed.

(** The normal form of a command line is a fixed point of the
    normalisation. *)
Lemma normalise_idem (s : string) :
  strip (lower (strip (lower s))) = strip (lower s).
Proof. now rewrite (strip_lower s), lower_idem, <- strip_lower, strip_idem. Qed.

Lemma blank_lstrip (s : string) : blank (lstrip s) = blank s.
Proof.
  induction s as [|c s IH]; simpl; [reflexivity|].
  destruct (is_space c) eqn:Ec; simpl; [exact IH | now rewrite Ec].
Qed.

Lemma rstrip_empty_iff (s : string) : rstrip s = "" <-> blank s = true.
Proof.
  induction s as [|c s IH]; simpl; [tauto|].
  destruct (rstrip s) as [|d r].
  - destruct (is_space c); simpl.
    + split; intros _; [now apply IH | reflexivity].
    + split; discriminate.
  - split; [discriminate|].
    intros H. apply andb_true_iff in H as [_ H].
    apply IH in H. discriminate.
Qed.

Lemma strip_empty_iff (s : string) : strip s = "" <-> blank s = true.
Proof. unfold strip. now rewrite rstrip_empty_iff, blank_lstrip. Qed.

Lemma contains_middle (pre sub post : string) : contains (pre ++ sub ++ post) sub.
Proof. now exists pre, post. Qed.

End PyStrFacts.

(** ** Timestamps *)

Module DatetimeFacts.
Import PyStr Datetime.

(** The text holds a [T], in either case. *)
Fixpoint has_t (s : string) : bool :=
  match s with
  | EmptyString => false
  | String c s' => Ascii.eqb (lower_char c) "t"%char || has_t s'
  end.

(** [r] is what is left of [s] after a prefix. *)
Definition tail_of (r s : string) : Prop := exists pre, s = pre ++ r.

Lemma tail_of_refl (s : string) : tail_of s s.
Proof. now exists "". Qed.

Lemma tail_of_step (c : ascii) (r : string) : tail_of r (String c r).
Proof. now exists (String c ""). Qed.

Lemma tail_of_trans (a b c : string) : tail_of a b -> tail_of b c -> tail_of a c.
Proof.
  intros [p ->] [q ->]. exists (q ++ p).
  induction q as [|x q IH]; simpl; [reflexivity | now rewrite IH].
Qed.

Lemma has_t_app (a b : string) : has_t (a ++ b) = has_t a || has_t b.
Proof.
  induction a as [|c a IH]; simpl; [reflexivity|].
  now rewrite IH, orb_assoc.
Qed.

Lemma has_t_tail (r s : string) : tail_of r s -> has_t r = true -> has_t s = true.
Proof. intros [p ->] H. rewrite has_t_app, H. apply orb_true_r. Qed.

Lemma has_t_take (n : nat) (s : string) : has_t s = false -> has_t (take n s) = false.
Proof.
  revert s; induction n as [|n IH]; intros [|c s]; simpl; trivial.
  intros H. apply orb_false_iff in H as [-> H]. now apply IH.
Qed.

(** A matcher only ever leaves a tail of the text it was given. *)
Definition shrinks {A} (p : parser A) : Prop :=
  forall s v r, In (v, r) (p s) -> tail_of r s.

Lemma in_pbind {A B} (p : parser A) (k : A -> parser B) s (x : B * string) :
  In x (pbind p k s) <-> exists a s1, In (a, s1) (p s) /\ In x (k a s1).
Proof.
  unfold pbind. rewrite in_flat_map. split.
  - intros [[a s1] [H1 H2]]. now exists a, s1.
  - intros (a & s1 & H1 & H2). now exists (a, s1).
Qed.

Lemma shrinks_pret {A} (a : A) : shrinks (pret a).
Proof. intros s v r [H|[]]. inversion H. apply tail_of_refl. Qed.

Lemma shrinks_pbind {A B} (p : parser A) (k : A -> parser B) :
  shrinks p -> (forall a, shrinks (k a)) -> shrinks (pbind p k).
Proof.
  intros Hp Hk s v r H. apply in_pbind in H as (a & s1 & H1 & H2).
  eapply tail_of_trans; [eapply Hk; eassumption | eapply Hp; eassumption].
Qed.

Lemma shrinks_palt {A} (ps : list (parser A)) :
  Forall shrinks ps -> shrinks (palt ps).
Proof.
  intros Hps s v r H. unfold palt in H. apply in_flat_map in H as (p & Hp & H).
  rewrite Forall_forall in Hps. eapply Hps; eassumption.
Qed.

Lemma shrinks_digit_in (lo hi : nat) : shrinks (digit_in lo hi).
Proof.
  intros [|c s] v r H; simpl in H; [contradiction|].
  destruct (_ && _ && _)%bool; [|contradiction].
  destruct H as [H|[]]. inversion H. apply tail_of_step.
Qed.

Lemma shrinks_lit (a : ascii) : shrinks (lit a).
Proof.
  intros [|c s] v r H; simpl in H; [contradiction|].
  destruct (Ascii.eqb _ _); [|contradiction].
  destruct H as [H|[]]. inversion H. apply tail_of_step.
Qed.

Ltac shrink :=
  repeat first
    [ apply shrinks_digit_in | apply shrinks_lit | apply shrinks_pret
    | apply shrinks_pbind; [|intro]
    | apply shrinks_palt; repeat constructor ].

Lemma shrinks_re_Y : shrinks re_Y.
Proof. unfold re_Y. shrink. Qed.

Lemma shrinks_re_m : shrinks re_m.
Proof. unfold re_m, pair_of. shrink. Qed.

Lemma shrinks_re_d : shrinks re_d.
Proof. unfold re_d, pair_of. shrink. Qed.

(** The literal [T] of the format is matched by a [T] of the text. *)
Lemma lit_T_has_t (s : string) (r : string) : In (tt, r) (lit "T" s) -> has_t s = true.
Proof.
  destruct s as [|c s]; simpl; [contradiction|].
  change (lower_char "T") with "t"%char.
  destruct (Ascii.eqb (lower_char c) "t"); [reflexivity | contradiction].
Qed.

Lemma re_iso_has_t (s : string) (x : datetime * string) :
  In x (re_iso s) -> has_t s = true.
Proof.
  unfold re_iso. intros H.
  apply in_pbind in H as (y & s1 & H1 & H).
  apply in_pbind in H as ([] & s2 & H2 & H).
  apply in_pbind in H as (m & s3 & H3 & H).
  apply in_pbind in H as ([] & s4 & H4 & H).
  apply in_pbind in H as (d & s5 & H5 & H).
  apply in_pbind in H as ([] & s6 & H6 & _).
  apply lit_T_has_t in H6.
  apply shrinks_re_Y in H1. apply shrinks_lit in H2. apply shrinks_re_m in H3.
  apply shrinks_lit in H4. apply shrinks_re_d in H5.
  eapply has_t_tail; [|exact H6].
  repeat (eapply tail_of_trans; [eassumption|]). apply tail_of_refl.
Qed.

(** A text without [T] is no ISO timestamp. *)
Lemma strptime_iso_needs_t (s : string) :
  has_t s = false -> exists e, strptime_iso s = Raise e.
Proof.
  intros H. unfold strptime_iso.
  destruct (re_iso s) as [|[dt rest] l] eqn:E; [eauto|].
  assert (Ht : has_t s = true) by (apply (re_iso_has_t s (dt, rest)); rewrite E; now left).
  congruence.
Qed.

Lemma has_t_digit (n : nat) : has_t (digit n) = false.
Proof.
  unfold digit. pose proof (Nat.mod_upper_bound n 10 ltac:(lia)) as H.
  remember (n mod 10) as k eqn:Ek. clear Ek.
  do 10 (destruct k as [|k]; [reflexivity|]). lia.
Qed.

Lemma has_t_pad2 (n : nat) : has_t (pad2 n) = false.
Proof. unfold pad2. now rewrite has_t_app, !has_t_digit. Qed.

Lemma has_t_pad4 (n : nat) : has_t (pad4 n) = false.
Proof. unfold pad4. now rewrite !has_t_app, !has_t_digit. Qed.

Lemma has_t_unpadded (n : nat) : has_t (unpadded n) = false.
Proof.
  unfold unpadded.
  repeat destruct (_ <? _)%nat;
    rewrite ?has_t_app, ?has_t_digit, ?has_t_pad4; reflexivity.
Qed.

(** The display form holds digits, dashes, colons and one space. *)
Lemma has_t_strftime_display (pad_year : bool) (dt : datetime) :
  has_t (strftime_display pad_year dt) = false.
Proof.
  unfold strftime_display.
  rewrite !has_t_app, !has_t_pad2.
  destruct pad_year; rewrite ?has_t_pad4, ?has_t_unpadded; reflexivity.
Qed.

End DatetimeFacts.

(** ** The program *)

(** The session after some more events *)
Definition logged (st : state) (evs : list event) : state :=
  mk_state (conversation_history st) (log st ++ evs)%list.

(** The session after a recorded exchange with the backend *)
Definition exchanged (st : state) (req : chat_request) (prompt reply : string) : state :=
  mk_state (conversation_history st ++ [mk_turn user prompt; mk_turn assistant reply])%list
           (log st ++ [EvChat req])%list.

Definition is_print (ev : event) : Prop :=
  match ev with
  | EvPrint _ => True
  | _ => False
  end.

(** The request [_generate_jql_from_natural_language] sends for [query] *)
Definition jql_request (st : state) (query : string) : chat_request :=
  chat_request_of (build_messages jql_system_prompt (conversation_history st) query).

(** A line that is no literal command and not empty goes to the translator. *)
Definition free_text (line : string) : bool :=
  negb (PyStr.mem line ["my issues"; "show my issues"; "list issues"])
  && negb (PyStr.startswith "details " line)
  && negb (PyStr.mem line ["help"; "?"])
  && negb (PyStr.mem line ["exit"; "quit"; "bye"])
  && negb (String.eqb line "").

Section ProgramFacts.

Variable env : environment.

Lemma get_ai_response_run (prompt system_prompt : string) (st : state) :
  _get_ai_response env prompt system_prompt st =
    let req := chat_request_of
                 (build_messages system_prompt (conversation_history st) prompt) in
    match chat_completion env req with
    | Ok reply => (Ok reply, exchanged st req prompt reply)
    | Raise e => (Ok (Py.str_exn e), logged st [EvChat req])
    end.
Proof.
  unfold _get_ai_response, try_except, bind, get_history, emit, lift,
    append_history, ret, exchanged, logged; simpl.
  destruct (chat_completion env _); simpl; [|reflexivity].
  now rewrite <- app_assoc.
Qed.

Lemma generate_jql_run (query : string) (st : state) :
  _generate_jql_from_natural_language env query st =
    match chat_completion env (jql_request st query) with
    | Ok reply => (Ok (PyStr.strip reply), exchanged st (jql_request st query) query reply)
    | Raise e => (Ok (PyStr.strip (Py.str_exn e)), logged st [EvChat (jql_request st query)])
    end.
Proof.
  unfold _generate_jql_from_natural_language, try_except, bind, ret.
  rewrite get_ai_response_run. cbv zeta. fold (jql_request st query).
  now destruct (chat_completion env _).
Qed.

(** The handler of [_generate_jql_from_natural_language] is never
    entered: [_get_ai_response] catches what the backend raises. *)
Lemma get_ai_response_never_raises (prompt system_prompt : string) (st : state) :
  exists text, fst (_get_ai_response env prompt system_prompt st) = Ok text.
Proof.
  rewrite get_ai_response_run. cbv zeta.
  destruct (chat_completion env _); simpl; eauto.
Qed.

Lemma jira_jql_search_run (jql : string) (fields : list string) (st : state) :
  jira_jql_search env jql fields st =
    match (response <- mcp_jira_mcp_jql_search env jql fields ;;
           decode env response)%result with
    | Ok v => (Ok v, logged st [EvSearch jql fields])
    | Raise e =>
        (Ok (JObj [("issues", JArr [])]),
         logged st [EvSearch jql fields;
                    EvPrint (Fore.RED ++ "Error in JQL search: " ++ Py.str_exn e
                               ++ Style.RESET_ALL)])
    end.
Proof.
  unfold jira_jql_search, try_except, bind, emit, print, emit, lift, ret, logged, rbind.
  simpl.
  destruct (mcp_jira_mcp_jql_search env jql fields) as [response|e]; simpl.
  - destruct (decode env response); simpl; [reflexivity|].
    now rewrite <- app_assoc.
  - now rewrite <- app_assoc.
Qed.

Lemma jira_get_issue_run (issue_key : string) (fields : list string) (st : state) :
  jira_get_issue env issue_key fields st =
    match (response <- mcp_jira_mcp_get_issue env issue_key fields ;;
           decode env response)%result with
    | Ok v => (Ok v, logged st [EvGetIssue issue_key fields])
    | Raise e =>
        (Ok JNull,
         logged st [EvGetIssue issue_key fields;
                    EvPrint (Fore.RED ++ "Error getting issue: " ++ Py.str_exn e
                               ++ Style.RESET_ALL)])
    end.
Proof.
  unfold jira_get_issue, try_except, bind, emit, print, emit, lift, ret, logged, rbind.
  simpl.
  destruct (mcp_jira_mcp_get_issue env issue_key fields) as [response|e]; simpl.
  - destruct (decode env response); simpl; [reflexivity|].
    now rewrite <- app_assoc.
  - now rewrite <- app_assoc.
Qed.

(** C3.  The messages of a model request are the system turn, then the
    last min(N, 5) turns of the N recorded ones in their order, then the
    new user turn; and this is the list [_get_ai_response] sends. *)
Theorem build_messages_window (system_prompt prompt : string) (st : state) :
  exists older window,
    conversation_history st = (older ++ window)%list
    /\ List.length window = Nat.min (List.length (conversation_history st)) 5
    /\ build_messages system_prompt (conversation_history st) prompt
       = (mk_turn system system_prompt :: window ++ [mk_turn user prompt])%list
    /\ log (snd (_get_ai_response env prompt system_prompt st))
       = (log st ++ [EvChat (chat_request_of
                               (mk_turn system system_prompt
                                  :: window ++ [mk_turn user prompt]))])%list.
Proof.
  set (h := conversation_history st).
  set (k := Z.to_nat (Z.max (Z.of_nat (List.length h) + -5) 0)).
  exists (firstn k h), (skipn k h).
  assert (Hw : slice_from (-5) h = skipn k h) by reflexivity.
  split; [|split; [|split]].
  - symmetry. apply firstn_skipn.
  - rewrite length_skipn. subst k. lia.
  - unfold build_messages. now rewrite Hw.
  - rewrite get_ai_response_run. cbv zeta. fold h.
    unfold build_messages. rewrite Hw.
    now destruct (chat_completion env _).
Qed.

(** C6.  A translation whose backend call succeeds appends the
    instruction as a user turn and the raw reply as an assistant turn,
    these two and in this order; one whose backend call fails leaves the
    history as it was. *)
Theorem generate_jql_history (query : string) (st : state) :
  conversation_history (snd (_generate_jql_from_natural_language env query st)) =
    match chat_completion env (jql_request st query) with
    | Ok reply =>
        (conversation_history st ++ [mk_turn user query; mk_turn assistant reply])%list
    | Raise _ => conversation_history st
    end.
Proof.
  rewrite generate_jql_run. now destruct (chat_completion env _).
Qed.

(** C2, amended.  When the backend call succeeds, the translation is the
    reply with the whitespace trimmed off both ends, and it is non-empty
    exactly when the reply holds a character that is no whitespace. *)
Theorem generate_jql_trims_reply (query reply : string) (st : state) :
  chat_completion env (jql_request st query) = Ok reply ->
  fst (_generate_jql_from_natural_language env query st) = Ok (PyStr.strip reply)
  /\ (PyStr.strip reply <> "" <-> PyStr.blank reply = false).
Proof.
  intros H. rewrite generate_jql_run, H. split; [reflexivity|].
  rewrite PyStrFacts.strip_empty_iff. now destruct (PyStr.blank reply).
Qed.

Lemma split_go_nonempty (sep : string) (s : string) :
  forall skip cur, exists piece pieces, PyStr.split_go sep skip cur s = piece :: pieces.
Proof.
  induction s as [|c s IH]; intros skip cur; simpl; [eauto|].
  destruct skip; [|apply IH].
  destruct (PyStr.startswith sep (String c s)); [eauto | apply IH].
Qed.

(** After [command.startswith('details ')] the subscript [[1]] of the
    split cannot raise. *)
Lemma split_second (line : string) :
  PyStr.startswith "details " line = true ->
  exists piece, nth_error (PyStr.split "details " line) 1 = Some piece.
Proof.
  intros H. unfold PyStr.split. destruct line as [|c s]; [discriminate|].
  cbn [PyStr.split_go]. rewrite H.
  destruct (split_go_nonempty "details " s (String.length "details " - 1) "")
    as (piece & pieces & ->).
  now exists piece.
Qed.

Lemma no_issues_is_no_listing (total : json) (blocks : list string) :
  no_issues_message <> PyStr.join Py.nl (listing_header total :: blocks).
Proof.
  unfold no_issues_message, listing_header, PyStr.join.
  destruct blocks; cbn; discriminate.
Qed.

(** C4, amended.  When the search made for the listing comes back with
    zero issues, [get_my_issues] returns the fixed notice that no issues
    were found; the notice is no listing: it has no [Found ... issue(s)]
    header and no per-issue block. *)
Theorem get_my_issues_nothing_found
  (natural_query : option string) (jql : string) (response : json)
  (st st1 st2 : state) :
  select_jql env natural_query st = (Ok jql, st1) ->
  jira_jql_search env jql search_fields st1 = (Ok response, st2) ->
  Py.get response "issues" = Ok (JArr []) ->
  get_my_issues env natural_query st = (Ok no_issues_message, st2)
  /\ forall total blocks,
       no_issues_message <> PyStr.join Py.nl (listing_header total :: blocks).
Proof.
  intros Hq Hs Hi. split; [|apply no_issues_is_no_listing].
  unfold get_my_issues, try_except, bind. rewrite Hq, Hs.
  unfold lift, render_listing.
  destruct (Py.truthy response); cbn [negb rbind]; [|reflexivity].
  now rewrite Hi.
Qed.

(** C5.  On [my issues], [show my issues] or [list issues], in any case
    and with any whitespace around, the one call made is the search with
    the fixed query: no request goes to the backend, nothing is added to
    the history, and whatever else is logged is printed text. *)
Theorem my_issues_uses_fixed_query (command : string) (st : state) :
  PyStr.mem (PyStr.strip (PyStr.lower command))
    ["my issues"; "show my issues"; "list issues"] = true ->
  exists out prints,
    process_command env command st
    = (Ok out, logged st (EvSearch DEFAULT_JQL search_fields :: prints))
    /\ Forall is_print prints.
Proof.
  intros H. unfold process_command, dispatch. rewrite H.
  unfold get_my_issues, select_jql, try_except, bind, ret.
  rewrite jira_jql_search_run.
  destruct (rbind _ _) as [v|e]; unfold lift;
    destruct (render_listing env _); eexists; eexists;
    (split; [reflexivity | repeat constructor]).
Qed.

(** C7.  [get_issue_details] never raises; when the fetch raises or
    answers [None], it returns the not-found message, which holds the
    identifier. *)
Theorem get_issue_details_not_found (issue_key : string) (st : state) :
  (exists out, fst (get_issue_details env issue_key st) = Ok out)
  /\ ((exists e, mcp_jira_mcp_get_issue env issue_key detail_fields = Raise e)
      \/ mcp_jira_mcp_get_issue env issue_key detail_fields = Ok JNull ->
      fst (get_issue_details env issue_key st) = Ok (not_found_message issue_key)
      /\ PyStr.contains (not_found_message issue_key) issue_key).
Proof.
  unfold get_issue_details, try_except, bind. rewrite jira_get_issue_run. split.
  - destruct (rbind _ _) as [v|e]; unfold lift, ret;
      [destruct (render_details env issue_key v)|]; simpl; eauto.
  - intros H. split.
    + destruct H as [[e ->] | ->]; reflexivity.
    + unfold not_found_message.
      exists (Fore.RED ++ "Issue "), (" not found." ++ Style.RESET_ALL).
      reflexivity.
Qed.

(** C8.  [_format_date] never raises, and a text whose first 19
    characters are no [%Y-%m-%dT%H:%M:%S] timestamp comes back as it is. *)
Theorem format_date_total (date_str : string) :
  (exists out, _format_date env date_str = Ok out)
  /\ ((exists e, Datetime.strptime_iso (PyStr.take 19 date_str) = Raise e) ->
      _format_date env date_str = Ok date_str).
Proof.
  unfold _format_date. split.
  - destruct (Datetime.strptime_iso _); simpl; eauto.
  - now intros [e ->].
Qed.

(** C9.  [_format_date] is idempotent: formatting its own result gives
    that result again (the display form has a space where the ISO form
    has its [T], so it takes the fallback path). *)
Theorem format_date_idempotent (date_str : string) :
  (out <- _format_date env date_str ;; _format_date env out)%result
  = _format_date env date_str.
Proof.
  unfold _format_date.
  destruct (Datetime.strptime_iso (PyStr.take 19 date_str)) as [dt|e] eqn:E;
    cbn [rbind].
  - destruct (DatetimeFacts.strptime_iso_needs_t
                (PyStr.take 19 (Datetime.strftime_display (strftime_pads_year env) dt)))
      as [e ->]; [|reflexivity].
    apply DatetimeFacts.has_t_take, DatetimeFacts.has_t_strftime_display.
  - now rewrite E.
Qed.

(** C10.  [process_command] routes on the lowercased and trimmed line
    alone: the line and its normal form are processed alike; a free text
    reaches the backend as that normal form, the last message of the
    request; after [details ] the identifier fetched is the second piece
    of the normal form, trimmed and uppercased (for a line whose capitals
    are characters of the model). *)
Theorem process_command_normalises (command : string) (st : state) :
  let line := PyStr.strip (PyStr.lower command) in
  process_command env command st = process_command env line st
  /\ (free_text line = true ->
      List.last (messages (jql_request st line)) (mk_turn system "") = mk_turn user line
      /\ exists later,
           log (snd (process_command env command st))
           = (log st ++ EvChat (jql_request st line) :: later)%list)
  /\ (PyStr.mem line ["my issues"; "show my issues"; "list issues"] = false ->
      PyStr.startswith "details " line = true ->
      PyStr.upper_fits line = true ->
      exists piece later,
        nth_error (PyStr.split "details " line) 1 = Some piece
        /\ log (snd (process_command env command st))
           = (log st
                ++ EvGetIssue (PyStr.upper (PyStr.strip piece)) detail_fields :: later)%list).
Proof.
  intros line. split; [|split].
  - unfold process_command. fold line. subst line.
    now rewrite PyStrFacts.normalise_idem.
  - intros H. unfold free_text in H.
    repeat (apply andb_true_iff in H as [H ?]).
    repeat match goal with X : negb _ = true |- _ => apply negb_true_iff in X end.
    split.
    + unfold jql_request, chat_request_of, build_messages. cbn [messages].
      rewrite app_assoc. apply last_last.
    + unfold process_command, dispatch. fold line.
      repeat match goal with X : _ = false |- _ => rewrite X end.
      unfold get_my_issues, select_jql, try_except, bind.
      match goal with X : String.eqb line _ = false |- _ => rewrite X end.
      unfold bind. rewrite generate_jql_run.
      destruct (chat_completion env _) as [reply|e];
        unfold print, emit, ret; cbn [conversation_history log exchanged logged];
        rewrite jira_jql_search_run;
        destruct (rbind _ _); unfold lift, logged;
        cbn [conversation_history log];
        destruct (render_listing env _); cbn [snd log];
        rewrite <- !app_assoc; eexists; reflexivity.
  - intros Hm Hd _. destruct (split_second line Hd) as [piece Hp].
    unfold process_command, dispatch. fold line. rewrite Hm, Hd, Hp.
    exists piece.
    unfold get_issue_details, try_except, bind. rewrite jira_get_issue_run.
    destruct (rbind _ _); unfold lift, ret, logged;
      [destruct (render_details env _ _)|]; cbn [snd log];
      eexists; (split; [reflexivity|]); reflexivity.
Qed.

End ProgramFacts.

(** What the translation returns when the backend raises: the text of the
    exception, trimmed; the session is left with the request logged. *)
Lemma generate_jql_backend_failure (env : environment) (query : string)
  (st : state) (e : exn) :
  chat_completion env (jql_request st query) = Raise e ->
  _generate_jql_from_natural_language env query st
  = (Ok (PyStr.strip (Py.str_exn e)), logged st [EvChat (jql_request st query)]).
Proof. intros H. now rewrite generate_jql_run, H. Qed.

(** ** The program on the example sessions *)

Module Runs.
Import Examples.

Example listing_of_my_issues :
  fst (process_command env_up "  My Issues " fresh)
  = Ok (PyStr.join Py.nl
          [ listing_header (JNum 1);
            PyStr.join Py.nl
              [ Py.nl ++ label "Issue Key:" ++ "ABC-1";
                label "Summary:" ++ "Fix the login page";
                label "Status:" ++ "Open";
                label "Priority:" ++ "High";
                label "Created:" ++ "2024-01-05 10:00:00";
                label "Updated:" ++ "2024-01-06 08:30:15" ];
            repeat_str "-" 50 ]).
Proof. reflexivity. Qed.

Example details_are_uppercased :
  log (snd (process_command env_up " Details abc-1 " fresh))
  = [EvGetIssue "ABC-1" detail_fields].
Proof. reflexivity. Qed.

Example free_text_is_translated :
  log (snd (process_command env_up "Show My BUGS" fresh))
  = [ EvChat (jql_request fresh "show my bugs");
      EvPrint (Fore.YELLOW ++ "Generated JQL:" ++ Style.RESET_ALL
                 ++ " assignee = currentUser() AND type = Bug");
      EvSearch "assignee = currentUser() AND type = Bug" search_fields ].
Proof. reflexivity. Qed.

Example offline_search_is_swallowed :
  fst (process_command env_offline "my issues" fresh) = Ok no_issues_message.
Proof. reflexivity. Qed.

Example window_of_seven :
  build_messages "sys" (conversation_history seven_turns) "now"
  = (mk_turn system "sys" :: map said [3; 4; 5; 6; 7]%nat ++ [mk_turn user "now"])%list.
Proof. reflexivity. Qed.

Example format_iso : _format_date env_up "2024-02-29T23:59:59.123+0000"
                     = Ok "2024-02-29 23:59:59".
Proof. reflexivity. Qed.

Example format_no_such_day : _format_date env_up "2023-02-29T23:59:59"
                             = Ok "2023-02-29T23:59:59".
Proof. reflexivity. Qed.

Example strptime_accepts :
  Datetime.strptime_iso "2024-1- 5t3:4:5" = Ok (Datetime.mk_datetime 2024 1 5 3 4 5).
Proof. reflexivity. Qed.

Example strptime_rejects :
  Datetime.strptime_iso "2024-01-05T10:00:75"
  = Raise (ValueError "unconverted data remains: 5")
  /\ Datetime.strptime_iso "2024-01-05T10:00:60"
     = Raise (ValueError "second must be in 0..59")
  /\ Datetime.strptime_iso "0000-01-01T00:00:00"
     = Raise (ValueError "year 0 is out of range")
  /\ Datetime.strptime_iso "2024-04-31T00:00:00"
     = Raise (ValueError "day is out of range for month").
Proof. repeat split. Qed.

Example year_below_1000 :
  _format_date env_offline "0987-01-05T03:04:05" = Ok "987-01-05 03:04:05"
  /\ _format_date env_up "0987-01-05T03:04:05" = Ok "0987-01-05 03:04:05".
Proof. split; reflexivity. Qed.

Example str_of_values :
  Py.str (JObj [("a", JArr [JNum 1; JNum (-20); JBool true; JNull])])
  = "{'a': [1, -20, True, None]}"
  /\ Py.str_exn (KeyError "key") = "'key'".
Proof. split; reflexivity. Qed.

Example split_details :
  PyStr.split "details " "details abc details def" = [""; "abc "; "def"].
Proof. reflexivity. Qed.

Example whitespace_table :
  filter (fun n => PyStr.is_space (ascii_of_nat n)) (seq 0 256)
  = [9; 10; 11; 12; 13; 28; 29; 30; 31; 32; 133; 160]%nat.
Proof. reflexivity. Qed.

Example lower_table :
  filter (fun n => negb (n =? PyStr.code (PyStr.lower_char (ascii_of_nat n)))%nat) (seq 0 256)
  = (seq 65 26 ++ seq 192 23 ++ seq 216 7)%list
  /\ forallb (fun n => (PyStr.code (PyStr.lower_char (ascii_of_nat n)) =? n + 32)%nat)
       (seq 65 26 ++ seq 192 23 ++ seq 216 7)%list = true.
Proof. split; reflexivity. Qed.

Example upper_table :
  filter (fun n => negb (String.eqb (PyStr.upper_text (ascii_of_nat n)) (PyStr.chr n)))
    (seq 0 256)
  = (seq 97 26 ++ [223] ++ seq 224 23 ++ seq 248 7)%list
  /\ forallb (fun n => String.eqb (PyStr.upper_text (ascii_of_nat n)) (PyStr.chr (n - 32)))
       (seq 97 26 ++ seq 224 23 ++ seq 248 7)%list = true
  /\ PyStr.upper_text (ascii_of_nat 223) = "SS".
Proof. repeat split. Qed.

Example latin1_text :
  PyStr.strip (PyStr.chr 160 ++ " caf" ++ PyStr.chr 233 ++ PyStr.chr 133)
  = "caf" ++ PyStr.chr 233
  /\ PyStr.lower ("CAF" ++ PyStr.chr 201) = "caf" ++ PyStr.chr 233
  /\ PyStr.upper ("caf" ++ PyStr.chr 233 ++ PyStr.chr 223) = "CAF" ++ PyStr.chr 201 ++ "SS"
  /\ Py.repr_str (PyStr.chr 160 ++ PyStr.chr 233 ++ PyStr.chr 173)
     = "'\xa0" ++ PyStr.chr 233 ++ "\xad'".
Proof. repeat split. Qed.

Example help_and_exit :
  fst (process_command env_up "HELP" fresh) = Ok _get_help
  /\ fst (process_command env_up " Quit" fresh) = Ok "exit".
Proof. split; reflexivity. Qed.

End Runs.

(** ** The claims at concrete sessions *)

(** C1.  With the backend down, the translation of [show my bugs] is the
    text of the exception and not the default query: [_get_ai_response]
    has caught the exception and returned its text, so the handler that
    holds the default query is not entered. *)
Theorem backend_failure_yields_error_text :
  chat_completion Examples.env_down (jql_request Examples.fresh "show my bugs")
  = Raise (Failure "Connection timed out")
  /\ fst (_generate_jql_from_natural_language Examples.env_down "show my bugs"
            Examples.fresh)
     = Ok "Connection timed out"
  /\ "Connection timed out" <> DEFAULT_JQL.
Proof. repeat split. discriminate. Qed.

(** C2, as stated, fails: a reply of three spaces is translated to the
    empty string. *)
Lemma blank_reply_gives_empty_query :
  fst (_generate_jql_from_natural_language Examples.env_blank "show my bugs"
         Examples.fresh)
  = Ok "".
Proof. reflexivity. Qed.

Lemma generate_jql_trims_reply_witness :
  chat_completion Examples.env_up (jql_request Examples.fresh "show my bugs")
  = Ok " assignee = currentUser() AND type = Bug "
  /\ fst (_generate_jql_from_natural_language Examples.env_up "show my bugs"
            Examples.fresh)
     = Ok (PyStr.strip " assignee = currentUser() AND type = Bug ")
  /\ fst (_generate_jql_from_natural_language Examples.env_edged "show my bugs"
            Examples.fresh)
     = Ok "project = ABC".
Proof.
  split; [reflexivity|split].
  - exact (proj1 (generate_jql_trims_reply Examples.env_up "show my bugs"
                    " assignee = currentUser() AND type = Bug " Examples.fresh eq_refl)).
  - exact (proj1 (generate_jql_trims_reply Examples.env_edged "show my bugs"
                    (PyStr.chr 160 ++ "project = ABC" ++ PyStr.chr 133)
                    Examples.fresh eq_refl)).
Defined.

(** C4, as stated, fails: on a response with zero issues the result is
    not the listing header for a total of 0. *)
Lemma empty_listing_is_not_a_header :
  Py.get (JObj [("issues", JArr []); ("total", JNum 0)]) "issues" = Ok (JArr [])
  /\ fst (get_my_issues Examples.env_empty None Examples.fresh)
     <> Ok (PyStr.join Py.nl [listing_header (JNum 0)]).
Proof. split; [reflexivity | discriminate]. Qed.

Lemma get_my_issues_nothing_found_witness :
  get_my_issues Examples.env_empty None Examples.fresh
  = (Ok no_issues_message,
     logged Examples.fresh [EvSearch DEFAULT_JQL search_fields]).
Proof.
  exact (proj1 (get_my_issues_nothing_found Examples.env_empty None DEFAULT_JQL
                  (JObj [("issues", JArr []); ("total", JNum 0)])
                  Examples.fresh Examples.fresh
                  (logged Examples.fresh [EvSearch DEFAULT_JQL search_fields])
                  eq_refl eq_refl eq_refl)).
Defined.

Lemma my_issues_uses_fixed_query_witness :
  exists out prints,
    process_command Examples.env_up "  Show MY Issues " Examples.seven_turns
    = (Ok out, logged Examples.seven_turns (EvSearch DEFAULT_JQL search_fields :: prints))
    /\ Forall is_print prints.
Proof.
  exact (my_issues_uses_fixed_query Examples.env_up "  Show MY Issues "
           Examples.seven_turns eq_refl).
Defined.

Lemma get_issue_details_not_found_witness :
  fst (get_issue_details Examples.env_up "ABC-9" Examples.fresh)
  = Ok (not_found_message "ABC-9")
  /\ fst (get_issue_details Examples.env_offline "ABC-1" Examples.fresh)
     = Ok (not_found_message "ABC-1").
Proof.
  split.
  - exact (proj1 (proj2 (get_issue_details_not_found Examples.env_up "ABC-9"
                           Examples.fresh) (or_intror eq_refl))).
  - exact (proj1 (proj2 (get_issue_details_not_found Examples.env_offline "ABC-1"
                           Examples.fresh)
                    (or_introl (ex_intro _ _ eq_refl)))).
Defined.

Lemma format_date_total_witness :
  _format_date Examples.env_up "2024-01-05 10:00:00" = Ok "2024-01-05 10:00:00".
Proof.
  exact (proj2 (format_date_total Examples.env_up "2024-01-05 10:00:00")
           (ex_intro _ _ eq_refl)).
Defined.

Lemma process_command_normalises_witness :
  (exists later,
     log (snd (process_command Examples.env_up "  Show My BUGS " Examples.fresh))
     = EvChat (jql_request Examples.fresh "show my bugs") :: later)
  /\ (exists later,
        log (snd (process_command Examples.env_up ("SHOW CAF" ++ PyStr.chr 201 ++ PyStr.chr 160)
                    Examples.fresh))
        = EvChat (jql_request Examples.fresh ("show caf" ++ PyStr.chr 233)) :: later)
  /\ (exists later,
        log (snd (process_command Examples.env_up " Details  abc-1 " Examples.fresh))
        = EvGetIssue "ABC-1" detail_fields :: later).
Proof.
  split; [|split].
  - exact (proj2 (proj1 (proj2 (process_command_normalises Examples.env_up
                                  "  Show My BUGS " Examples.fresh)) eq_refl)).
  - exact (proj2 (proj1 (proj2 (process_command_normalises Examples.env_up
                                  ("SHOW CAF" ++ PyStr.chr 201 ++ PyStr.chr 160)
                                  Examples.fresh)) eq_refl)).
  - destruct (proj2 (proj2 (process_command_normalises Examples.env_up
                              " Details  abc-1 " Examples.fresh))
                eq_refl eq_refl eq_refl) as (piece & later & Hp & Hl).
    change (Some " abc-1" = Some piece) in Hp. injection Hp as <-.
    exists later. exact Hl.
Defined.

(** * The rest of the program *)

(** ** The read loop of [main] *)

Module Main.

Definition MAGENTA : string := Fore.esc ++ "[35m".

Definition goodbye : string := Py.nl ++ Fore.GREEN ++ "Goodbye!" ++ Style.RESET_ALL.

(** The lines [main] prints before it reads, source lines 199-204 *)
Definition banner : list string :=
  [ Fore.CYAN ++ "Initializing Jira Chatbot with AI capabilities..." ++ Style.RESET_ALL;
    Py.nl ++ Fore.GREEN ++ "Welcome to AI-powered Jira Chatbot!" ++ Style.RESET_ALL;
    "Type 'help' for available commands or 'exit' to quit.";
    Fore.YELLOW ++ "You can use natural language to query your issues!" ++ Style.RESET_ALL ].

Section Loop.

Variable env : environment.

Local Open Scope M_scope.

(** One turn of the [while True] loop, source lines 207-225, on the text
    [input] has returned; the result tells whether the loop goes on.  The
    prompt that [input] writes is not logged. *)
Definition turn_of_loop (typed : string) : M bool :=
  try_except
    (let user_input := PyStr.strip typed in
     if String.eqb user_input ""
     then ret true
     else
       response <- process_command env user_input ;;
       if String.eqb response "exit"
       then print goodbye ;;; ret false
       else
         print (Py.nl ++ MAGENTA ++ "Bot:" ++ Style.RESET_ALL ++ " " ++ response) ;;;
         ret true)
    (fun e =>
       print (Py.nl ++ Fore.RED ++ "An error occurred: " ++ Py.str_exn e
                ++ Style.RESET_ALL) ;;;
       ret true).

(** The loop over the lines the user types, in their order, until one of
    them ends it.  What [input] does when no line is left, and an
    interrupt from the keyboard, are outside this model. *)
Fixpoint loop (typed : list string) : M unit :=
  match typed with
  | [] => ret tt
  | line :: rest =>
      go_on <- turn_of_loop line ;;
      if (go_on : bool) then loop rest else ret tt
  end.

Fixpoint print_all (lines : list string) : M unit :=
  match lines with
  | [] => ret tt
  | line :: rest => print line ;;; print_all rest
  end.

(** [main], source lines 198-225, from a new [JiraChatbot] *)
Definition main (typed : list string) : result unit * state :=
  (print_all banner ;;; loop typed) (mk_state [] []).

End Loop.

End Main.

(** ** What the commands return and leave behind *)

(** The text starts with the escape character of a colour. *)
Definition coloured (text : string) : Prop := exists rest, text = Fore.esc ++ rest.

Definition generated_line (jql : string) : string :=
  Fore.YELLOW ++ "Generated JQL:" ++ Style.RESET_ALL ++ " " ++ jql.

Definition fetch_error (e : exn) : string :=
  Fore.RED ++ "Error fetching issues: " ++ Py.str_exn e ++ Style.RESET_ALL.

Definition details_error (e : exn) : string :=
  Fore.RED ++ "Error fetching issue details: " ++ Py.str_exn e ++ Style.RESET_ALL.

Definition search_error_line (e : exn) : string :=
  Fore.RED ++ "Error in JQL search: " ++ Py.str_exn e ++ Style.RESET_ALL.

Section CommandFacts.

Variable env : environment.

Lemma select_jql_run (natural_query : option string) (st : state) :
  select_jql env natural_query st =
    match natural_query with
    | None => (Ok DEFAULT_JQL, st)
    | Some query =>
        if String.eqb query "" then (Ok DEFAULT_JQL, st)
        else
          match chat_completion env (jql_request st query) with
          | Ok reply =>
              (Ok (PyStr.strip reply),
               logged (exchanged st (jql_request st query) query reply)
                 [EvPrint (generated_line (PyStr.strip reply))])
          | Raise e =>
              (Ok (PyStr.strip (Py.str_exn e)),
               logged st [EvChat (jql_request st query);
                          EvPrint (generated_line (PyStr.strip (Py.str_exn e)))])
          end
    end.
Proof.
  destruct natural_query as [query|]; [|reflexivity].
  unfold select_jql. destruct (String.eqb query ""); [reflexivity|].
  unfold bind. rewrite generate_jql_run.
  destruct (chat_completion env _); unfold print, emit, ret, logged, exchanged;
    cbn [conversation_history log]; [reflexivity|].
  now rewrite <- app_assoc.
Qed.

(** [get_my_issues] in three steps: the query is chosen, the search is
    made, the response is rendered; a rendering that raises becomes the
    error text. *)
Lemma get_my_issues_run (natural_query : option string) (st : state) :
  exists jql st1 response st2,
    select_jql env natural_query st = (Ok jql, st1)
    /\ jira_jql_search env jql search_fields st1 = (Ok response, st2)
    /\ get_my_issues env natural_query st
       = (match render_listing env response with
          | Ok out => Ok out
          | Raise e => Ok (fetch_error e)
          end, st2).
Proof.
  destruct (select_jql env natural_query st) as [[jql|e] st1] eqn:Hq.
  - destruct (jira_jql_search env jql search_fields st1) as [[response|e] st2] eqn:Hs.
    + exists jql, st1, response, st2. split; [reflexivity|split; [exact Hs|]].
      unfold get_my_issues, try_except, bind. rewrite Hq, Hs. unfold lift.
      now destruct (render_listing env response).
    + rewrite jira_jql_search_run in Hs. destruct (rbind _ _); discriminate.
  - rewrite select_jql_run in Hq.
    destruct natural_query as [query|]; [|discriminate].
    destruct (String.eqb query ""); [discriminate|].
    destruct (chat_completion env _); discriminate.
Qed.

Lemma get_issue_details_run (issue_key : string) (st : state) :
  exists response st1,
    jira_get_issue env issue_key detail_fields st = (Ok response, st1)
    /\ get_issue_details env issue_key st
       = (match render_details env issue_key response with
          | Ok out => Ok out
          | Raise e => Ok (details_error e)
          end, st1).
Proof.
  destruct (jira_get_issue env issue_key detail_fields st) as [[response|e] st1] eqn:Hg.
  - exists response, st1. split; [reflexivity|].
    unfold get_issue_details, try_except, bind. rewrite Hg. unfold lift.
    now destruct (render_details env issue_key response).
  - rewrite jira_get_issue_run in Hg. destruct (rbind _ _); discriminate.
Qed.

Lemma coloured_listing (total : json) (blocks : list string) :
  coloured (PyStr.join Py.nl (listing_header total :: blocks)).
Proof.
  unfold coloured, PyStr.join, listing_header.
  destruct blocks; cbn; eexists; reflexivity.
Qed.

Lemma render_listing_coloured (response : json) (out : string) :
  render_listing env response = Ok out -> coloured out.
Proof.
  unfold render_listing.
  destruct (if negb (Py.truthy response) then _ else _) as [[|]|e]; cbn [rbind];
    [intros [= <-]; eexists; reflexivity | | discriminate].
  destruct (Py.get_default response "issues" (JArr [])) as [issues|]; cbn [rbind];
    [|discriminate].
  destruct (Py.len issues) as [count|]; cbn [rbind]; [|discriminate].
  destruct (Py.get_default response "total" (JNum count)) as [total|]; cbn [rbind];
    [|discriminate].
  destruct (Py.iterate issues) as [items|]; cbn [rbind]; [|discriminate].
  destruct (issue_blocks env items) as [blocks|]; cbn [rbind]; [|discriminate].
  intros [= <-]. apply coloured_listing.
Qed.

Lemma render_details_coloured (issue_key : string) (response : json) (out : string) :
  render_details env issue_key response = Ok out -> coloured out.
Proof.
  unfold render_details.
  destruct (negb (Py.truthy response)); [intros [= <-]; eexists; reflexivity|].
  destruct (_format_issue_display env response true); cbn [rbind]; [|discriminate].
  intros [= <-]. eexists. reflexivity.
Qed.

Lemma get_my_issues_coloured (natural_query : option string) (st : state) :
  exists out, fst (get_my_issues env natural_query st) = Ok out /\ coloured out.
Proof.
  destruct (get_my_issues_run natural_query st) as (jql & st1 & response & st2 & _ & _ & ->).
  destruct (render_listing env response) as [out|e] eqn:E; cbn [fst]; eexists; split;
    try reflexivity.
  - eapply render_listing_coloured; eassumption.
  - eexists; reflexivity.
Qed.

Lemma get_issue_details_coloured (issue_key : string) (st : state) :
  exists out, fst (get_issue_details env issue_key st) = Ok out /\ coloured out.
Proof.
  destruct (get_issue_details_run issue_key st) as (response & st1 & _ & ->).
  destruct (render_details env issue_key response) as [out|e] eqn:E; cbn [fst];
    eexists; split; try reflexivity.
  - eapply render_details_coloured; eassumption.
  - eexists; reflexivity.
Qed.

Lemma mem_In (x : string) (xs : list string) : PyStr.mem x xs = true <-> In x xs.
Proof.
  unfold PyStr.mem. rewrite existsb_exists. split.
  - intros (y & Hy & E). apply String.eqb_eq in E. now subst.
  - intros H. exists x. split; [exact H | apply String.eqb_refl].
Qed.

Lemma coloured_not_exit (text : string) : coloured text -> text <> "exit".
Proof. intros [rest ->]. discriminate. Qed.

Lemma process_command_returns (command : string) (st : state) :
  exists out, fst (process_command env command st) = Ok out.
Proof.
  unfold process_command, dispatch.
  set (line := PyStr.strip (PyStr.lower command)).
  destruct (PyStr.mem line _).
  { destruct (get_my_issues_coloured None st) as (out & H & _). eauto. }
  destruct (PyStr.startswith "details " line) eqn:Hd.
  { destruct (split_second line Hd) as [piece ->].
    destruct (get_issue_details_coloured (PyStr.upper (PyStr.strip piece)) st)
      as (out & H & _). eauto. }
  destruct (PyStr.mem line _); [simpl; eauto|].
  destruct (PyStr.mem line _); [simpl; eauto|].
  destruct (get_my_issues_coloured (Some line) st) as (out & H & _). eauto.
Qed.

(** X1.  [process_command] never raises, whatever is typed and whatever
    the collaborators do: after [startswith('details ')] the subscript
    [[1]] of the split always exists, and both the listing and the detail
    view turn every exception into a message. *)
Theorem process_command_never_raises (command : string) (st : state) :
  exists out, fst (process_command env command st) = Ok out.
Proof. apply process_command_returns. Qed.

(** X2.  [process_command] returns the text [exit], which is what ends the
    read loop, exactly on the commands [exit], [quit] and [bye] (in any
    case, with any whitespace around): no listing, detail view, help or
    error text is ever that word. *)
Theorem process_command_exit_iff (command : string) (st : state) :
  fst (process_command env command st) = Ok "exit"
  <-> PyStr.mem (PyStr.strip (PyStr.lower command)) ["exit"; "quit"; "bye"] = true.
Proof.
  unfold process_command, dispatch.
  generalize (PyStr.strip (PyStr.lower command)). intros line.
  destruct (PyStr.mem line ["my issues"; "show my issues"; "list issues"]) eqn:H1.
  { destruct (get_my_issues_coloured None st) as (out & H & Hc). rewrite H.
    split.
    - intros [= ->]. now apply coloured_not_exit in Hc.
    - intros H2. apply mem_In in H1, H2. simpl in H1, H2.
      destruct H2 as [<-|[<-|[<-|[]]]]; destruct H1 as [H1|[H1|[H1|[]]]]; discriminate. }
  destruct (PyStr.startswith "details " line) eqn:Hd.
  { destruct (split_second line Hd) as [piece ->].
    destruct (get_issue_details_coloured (PyStr.upper (PyStr.strip piece)) st)
      as (out & H & Hc). rewrite H.
    split.
    - intros [= ->]. now apply coloured_not_exit in Hc.
    - intros H2. apply mem_In in H2. simpl in H2.
      destruct H2 as [<-|[<-|[<-|[]]]]; discriminate. }
  destruct (PyStr.mem line ["help"; "?"]) eqn:H3.
  { split.
    - intros H. discriminate H.
    - intros H2. apply mem_In in H3, H2. simpl in H3, H2.
      destruct H2 as [<-|[<-|[<-|[]]]]; destruct H3 as [H3|[H3|[]]]; discriminate. }
  destruct (PyStr.mem line ["exit"; "quit"; "bye"]) eqn:H4; [tauto|].
  destruct (get_my_issues_coloured (Some line) st) as (out & H & Hc). rewrite H.
  split; [|discriminate].
  intros [= ->]. now apply coloured_not_exit in Hc.
Qed.

Lemma help_is_silent (command : string) (st : state) :
  PyStr.mem (PyStr.strip (PyStr.lower command)) ["help"; "?"] = true ->
  process_command env command st = (Ok _get_help, st).
Proof.
  unfold process_command, dispatch.
  generalize (PyStr.strip (PyStr.lower command)). intros line H.
  apply mem_In in H. simpl in H. destruct H as [<-|[<-|[]]]; reflexivity.
Qed.

Lemma exit_is_silent (command : string) (st : state) :
  PyStr.mem (PyStr.strip (PyStr.lower command)) ["exit"; "quit"; "bye"] = true ->
  process_command env command st = (Ok "exit", st).
Proof.
  unfold process_command, dispatch.
  generalize (PyStr.strip (PyStr.lower command)). intros line H.
  apply mem_In in H. simpl in H. destruct H as [<-|[<-|[<-|[]]]]; reflexivity.
Qed.

(** X3.  [help], [?], [exit], [quit] and [bye] are answered from the
    program alone: no call is made, nothing is printed and the history is
    untouched; the first two return the help text, the others [exit]. *)
Theorem help_and_exit_are_silent (command : string) (st : state) :
  let line := PyStr.strip (PyStr.lower command) in
  (PyStr.mem line ["help"; "?"] = true ->
   process_command env command st = (Ok _get_help, st))
  /\ (PyStr.mem line ["exit"; "quit"; "bye"] = true ->
      process_command env command st = (Ok "exit", st)).
Proof. split; [apply help_is_silent | apply exit_is_silent]. Qed.

(** X4.  A line that is empty once lowercased and trimmed is treated as
    [my issues]: [get_my_issues] takes the empty text for no query, so
    the fixed query is searched and the backend is not asked. *)
Theorem blank_line_lists_my_issues (command : string) (st : state) :
  PyStr.strip (PyStr.lower command) = "" ->
  process_command env command st = process_command env "my issues" st.
Proof.
  intros H. unfold process_command. rewrite H.
  change (PyStr.strip (PyStr.lower "my issues")) with "my issues".
  change (dispatch env "") with (get_my_issues env (Some "")).
  change (dispatch env "my issues") with (get_my_issues env None).
  reflexivity.
Qed.

End CommandFacts.

(** ** The session across a command *)

(** The history is made of exchanges: a user turn, then the assistant's. *)
Fixpoint paired (history : list turn) : Prop :=
  match history with
  | [] => True
  | question :: rest =>
      match rest with
      | [] => False
      | answer :: older =>
          turn_role question = user /\ turn_role answer = assistant /\ paired older
      end
  end.

(** Nothing or one exchange *)
Definition at_most_one_exchange (added : list turn) : Prop :=
  added = [] \/ exists query reply, added = [mk_turn user query; mk_turn assistant reply].

Section SessionFacts.

Variable env : environment.

(** X5.  A search that fails, because the tool raises or because its text
    reply is no JSON, reads to the user as an empty result: the error is
    printed once by [jira_jql_search] and [get_my_issues] returns the
    notice that no issues were found. *)
Theorem search_failure_reads_as_no_issues
  (natural_query : option string) (jql : string) (st st1 : state) (e : exn) :
  select_jql env natural_query st = (Ok jql, st1) ->
  mcp_jira_mcp_jql_search env jql search_fields = Raise e
  \/ (exists text, mcp_jira_mcp_jql_search env jql search_fields = Ok (JStr text)
                   /\ json_loads env text = Raise e) ->
  get_my_issues env natural_query st
  = (Ok no_issues_message,
     logged st1 [EvSearch jql search_fields; EvPrint (search_error_line e)]).
Proof.
  intros Hq Hf.
  assert (Hs : jira_jql_search env jql search_fields st1
               = (Ok (JObj [("issues", JArr [])]),
                  logged st1 [EvSearch jql search_fields; EvPrint (search_error_line e)])).
  { rewrite jira_jql_search_run.
    destruct Hf as [-> | (text & -> & Ht)]; cbn [rbind decode]; [reflexivity|].
    now rewrite Ht. }
  unfold get_my_issues, try_except, bind. now rewrite Hq, Hs.
Qed.

(** X6.  For a free-text query that the backend answers, the query printed
    as [Generated JQL:] is the one the tracker is searched with, and it is
    the reply with its outer whitespace trimmed, nothing else done to it;
    the events are the request, the printed line, the search, in this
    order, then at most printed text. *)
Theorem generated_jql_is_searched (query reply : string) (st : state) :
  query <> "" ->
  chat_completion env (jql_request st query) = Ok reply ->
  exists prints,
    log (snd (get_my_issues env (Some query) st))
    = (log st
         ++ [ EvChat (jql_request st query);
              EvPrint (generated_line (PyStr.strip reply));
              EvSearch (PyStr.strip reply) search_fields ]
         ++ prints)%list
    /\ Forall is_print prints.
Proof.
  intros Hne Hr.
  destruct (get_my_issues_run env (Some query) st)
    as (jql & st1 & response & st2 & Hq & Hs & ->). cbn [snd].
  rewrite select_jql_run, Hr in Hq. apply String.eqb_neq in Hne. rewrite Hne in Hq.
  injection Hq as <- <-.
  rewrite jira_jql_search_run in Hs.
  destruct (rbind _ _); injection Hs as _ <-; unfold logged, exchanged;
    cbn [log conversation_history]; rewrite <- !app_assoc; cbn [List.app];
    eexists; (split; [reflexivity | repeat constructor]).
Qed.

Lemma get_my_issues_session (natural_query : option string) (st : state) :
  exists added evs,
    snd (get_my_issues env natural_query st)
    = mk_state (conversation_history st ++ added)%list (log st ++ evs)%list
    /\ at_most_one_exchange added.
Proof.
  destruct (get_my_issues_run env natural_query st)
    as (jql & st1 & response & st2 & Hq & Hs & ->). cbn [snd].
  rewrite jira_jql_search_run in Hs.
  assert (H1 : exists added evs,
             st1 = mk_state (conversation_history st ++ added)%list (log st ++ evs)%list
             /\ at_most_one_exchange added).
  { rewrite select_jql_run in Hq.
    destruct natural_query as [query|].
    - destruct (String.eqb query "").
      + injection Hq as _ <-. exists [], []. rewrite !app_nil_r.
        split; [now destruct st | now left].
      + destruct (chat_completion env _) as [reply|e]; injection Hq as _ <-.
        * eexists. eexists. unfold logged, exchanged. cbn [conversation_history log].
          rewrite <- app_assoc. split; [reflexivity|]. right. eauto.
        * exists []. eexists. unfold logged. rewrite app_nil_r.
          split; [reflexivity | now left].
    - injection Hq as _ <-. exists [], []. rewrite !app_nil_r.
      split; [now destruct st | now left]. }
  destruct H1 as (added & evs & -> & Ha). exists added.
  destruct (rbind _ _); injection Hs as _ <-; unfold logged;
    cbn [conversation_history log]; rewrite <- app_assoc; eauto.
Qed.

Lemma get_issue_details_session (issue_key : string) (st : state) :
  exists evs, snd (get_issue_details env issue_key st) = logged st evs.
Proof.
  destruct (get_issue_details_run env issue_key st) as (response & st1 & Hg & ->).
  cbn [snd]. rewrite jira_get_issue_run in Hg.
  destruct (rbind _ _); injection Hg as _ <-; eauto.
Qed.

Lemma process_command_session (command : string) (st : state) :
  exists added evs,
    snd (process_command env command st)
    = mk_state (conversation_history st ++ added)%list (log st ++ evs)%list
    /\ at_most_one_exchange added.
Proof.
  assert (Hsame : exists added evs,
             st = mk_state (conversation_history st ++ added)%list (log st ++ evs)%list
             /\ at_most_one_exchange added).
  { exists [], []. rewrite !app_nil_r. split; [now destruct st | now left]. }
  unfold process_command, dispatch.
  generalize (PyStr.strip (PyStr.lower command)). intros line.
  destruct (PyStr.mem line _); [apply get_my_issues_session|].
  destruct (PyStr.startswith "details " line) eqn:Hd.
  { destruct (split_second line Hd) as [piece ->].
    destruct (get_issue_details_session (PyStr.upper (PyStr.strip piece)) st)
      as [evs ->].
    exists [], evs. unfold logged. rewrite app_nil_r. split; [reflexivity | now left]. }
  destruct (PyStr.mem line _); [exact Hsame|].
  destruct (PyStr.mem line _); [exact Hsame|].
  apply get_my_issues_session.
Qed.

(** X7.  A command only ever adds to the session: the old history is a
    prefix of the new one and what is added is nothing or one exchange (the
    query as a user turn, then the backend's reply as an assistant turn);
    the old log is a prefix of the new log. *)
Theorem process_command_extends_session (command : string) (st : state) :
  exists added evs,
    snd (process_command env command st)
    = mk_state (conversation_history st ++ added)%list (log st ++ evs)%list
    /\ at_most_one_exchange added.
Proof. apply process_command_session. Qed.

Lemma paired_app (h added : list turn) :
  paired h -> paired added -> paired (h ++ added)%list.
Proof.
  revert h. fix IH 1. intros [|q [|a older]]; cbn; try tauto.
  intros (Hq & Ha & Ho) Hadd. repeat split; trivial. now apply IH.
Qed.

(** X8.  A history made of exchanges stays one under every command; the
    history of a new session is such a history. *)
Theorem process_command_keeps_exchanges (command : string) (st : state) :
  paired (conversation_history st) ->
  paired (conversation_history (snd (process_command env command st))).
Proof.
  intros Hp.
  destruct (process_command_session command st) as (added & evs & -> & Ha).
  cbn [conversation_history]. apply paired_app; [exact Hp|].
  destruct Ha as [-> | (query & reply & ->)]; cbn; tauto.
Qed.

End SessionFacts.

Lemma paired_even (h : list turn) : paired h -> exists n, List.length h = 2 * n.
Proof.
  revert h. fix IH 1. intros [|q [|a older]]; cbn.
  - now exists 0.
  - contradiction.
  - intros (_ & _ & Ho). destruct (IH older Ho) as [n Hn]. exists (S n). lia.
Qed.

Lemma paired_odd_position (j : nat) :
  forall h, paired h -> 2 * j + 1 < List.length h ->
            exists answer rest, skipn (2 * j + 1) h = answer :: rest
                                /\ turn_role answer = assistant.
Proof.
  induction j as [|j IH]; intros [|q [|a older]]; cbn [paired List.length];
    try tauto; try lia.
  - intros (_ & Ha & _) _. now exists a, older.
  - intros (_ & _ & Ho) Hl.
    replace (2 * S j + 1) with (S (S (2 * j + 1))) by lia. cbn [skipn].
    apply IH; [exact Ho | lia].
Qed.

(** X9.  Once three exchanges or more are recorded, the window of five
    turns cuts an exchange in two: the first turn after the system turn in
    the request is an assistant's reply, and the question it answered is
    not sent. *)
Theorem window_starts_with_a_reply (system_prompt prompt : string) (history : list turn) :
  paired history ->
  6 <= List.length history ->
  exists reply rest,
    build_messages system_prompt history prompt
    = mk_turn system system_prompt :: mk_turn assistant reply :: rest.
Proof.
  intros Hp Hl. destruct (paired_even history Hp) as [n Hn].
  unfold build_messages, slice_from. cbn [Z.ltb Z.compare].
  replace (Z.to_nat (Z.max (Z.of_nat (List.length history) + -5) 0))
    with (2 * (n - 3) + 1) by lia.
  destruct (paired_odd_position (n - 3) history Hp) as ([r reply] & rest & -> & Hr);
    [lia|].
  cbn in Hr. subst r. now exists reply, (rest ++ [mk_turn user prompt])%list.
Qed.

(** ** Timestamps that parse *)

Module TimestampFacts.
Import PyStr Datetime.

(** The tracker's form of a timestamp, [%Y-%m-%dT%H:%M:%S] with every
    field padded with zeros *)
Definition iso (dt : datetime) : string :=
  pad4 (year dt) ++ "-" ++ pad2 (month dt) ++ "-" ++ pad2 (day dt)
  ++ "T" ++ pad2 (hour dt) ++ ":" ++ pad2 (minute dt) ++ ":" ++ pad2 (second dt).

#[local] Set Warnings "-abstract-large-number".

(** [datetime.MAXYEAR] *)
Definition MAXYEAR : nat := 9999.

(** A date of the calendar and a time of the day, as [datetime] accepts *)
Definition valid (dt : datetime) : Prop :=
  1 <= year dt <= MAXYEAR
  /\ 1 <= month dt <= 12
  /\ 1 <= day dt <= days_in_month (year dt) (month dt)
  /\ hour dt <= 23 /\ minute dt <= 59 /\ second dt <= 59.

Lemma days_in_month_le (y m : nat) : days_in_month y m <= 31.
Proof.
  unfold days_in_month.
  do 12 (destruct m as [|m]; [try destruct (is_leap y); lia|]). lia.
Qed.

Lemma pbind_first {A B} (p : parser A) (k : A -> parser B) s v r x :
  hd_error (p s) = Some (v, r) ->
  hd_error (k v r) = Some x ->
  hd_error (pbind p k s) = Some x.
Proof.
  unfold pbind. destruct (p s) as [|[v' r'] l]; [discriminate|].
  intros [= -> ->]. cbn. now destruct (k v r).
Qed.

Lemma digit_in_digit (n : nat) (r : string) :
  digit_in 0 9 (digit n ++ r) = [(n mod 10, r)].
Proof.
  unfold digit. pose proof (Nat.mod_upper_bound n 10 ltac:(lia)) as H.
  remember (n mod 10) as k eqn:Ek. clear Ek.
  do 10 (destruct k as [|k]; [reflexivity|]). lia.
Qed.

Lemma MAXYEAR_eq : MAXYEAR = 99 * 101.
Proof. vm_compute. reflexivity. Qed.

Lemma decimal_of_year (y : nat) :
  y <= MAXYEAR ->
  1000 * ((y / 1000) mod 10) + 100 * ((y / 100) mod 10) + 10 * ((y / 10) mod 10)
  + y mod 10 = y.
Proof.
  rewrite MAXYEAR_eq. intros H.
  pose proof (Nat.div_mod_eq y 10). pose proof (Nat.div_mod_eq (y / 10) 10).
  pose proof (Nat.div_mod_eq (y / 100) 10).
  replace (y / 100) with (y / 10 / 10) in * by (now rewrite Nat.Div0.div_div).
  replace (y / 1000) with (y / 10 / 10 / 10) in * by (now rewrite !Nat.Div0.div_div).
  assert (y / 10 / 10 / 10 < 10)
    by (rewrite !Nat.Div0.div_div; apply Nat.Div0.div_lt_upper_bound; lia).
  rewrite (Nat.mod_small (y / 10 / 10 / 10) 10) by assumption.
  lia.
Qed.

Lemma re_Y_pad4 (y : nat) (r : string) :
  y <= MAXYEAR -> hd_error (re_Y (pad4 y ++ r)) = Some (y, r).
Proof.
  intros H. unfold re_Y, pad4.
  change ((digit (y / 1000) ++ digit (y / 100) ++ digit (y / 10) ++ digit y) ++ r)
    with (digit (y / 1000) ++ digit (y / 100) ++ digit (y / 10) ++ digit y ++ r).
  repeat (eapply pbind_first; [rewrite digit_in_digit; reflexivity|]).
  unfold pret. cbn [hd_error]. now rewrite decimal_of_year.
Qed.

Lemma re_m_pad2 (m : nat) (r : string) :
  1 <= m <= 12 -> hd_error (re_m (pad2 m ++ r)) = Some (m, r).
Proof.
  intros H. do 13 (destruct m as [|m]; [try lia; try reflexivity|]). lia.
Qed.

Lemma re_d_pad2 (d : nat) (r : string) :
  1 <= d <= 31 -> hd_error (re_d (pad2 d ++ r)) = Some (d, r).
Proof.
  intros H. do 32 (destruct d as [|d]; [try lia; try reflexivity|]). lia.
Qed.

Lemma re_H_pad2 (h : nat) (r : string) :
  h <= 23 -> hd_error (re_H (pad2 h ++ r)) = Some (h, r).
Proof.
  intros H. do 24 (destruct h as [|h]; [reflexivity|]). lia.
Qed.

Lemma re_M_pad2 (m : nat) (r : string) :
  m <= 59 -> hd_error (re_M (pad2 m ++ r)) = Some (m, r).
Proof.
  intros H. do 60 (destruct m as [|m]; [reflexivity|]). lia.
Qed.

Lemma re_S_pad2 (s : nat) (r : string) :
  s <= 59 -> hd_error (re_S (pad2 s ++ r)) = Some (s, r).
Proof.
  intros H. do 60 (destruct s as [|s]; [reflexivity|]). lia.
Qed.

Lemma re_iso_iso (dt : datetime) : valid dt -> hd_error (re_iso (iso dt)) = Some (dt, "").
Proof.
  destruct dt as [y m d h mi s]. unfold valid, iso, re_iso. cbn [year month day hour minute second].
  intros (Hy & Hm & Hd & Hh & Hmi & Hs).
  pose proof (days_in_month_le y m).
  eapply pbind_first; [apply re_Y_pad4; lia|].
  eapply pbind_first; [reflexivity|].
  eapply pbind_first; [apply re_m_pad2; lia|].
  eapply pbind_first; [reflexivity|].
  eapply pbind_first; [apply re_d_pad2; lia|].
  eapply pbind_first; [reflexivity|].
  eapply pbind_first; [apply re_H_pad2; lia|].
  eapply pbind_first; [reflexivity|].
  eapply pbind_first; [apply re_M_pad2; lia|].
  eapply pbind_first; [reflexivity|].
  change (pad2 s) with (pad2 s ++ "").
  eapply pbind_first; [apply re_S_pad2; lia|].
  reflexivity.
Qed.

Lemma strptime_iso_iso (dt : datetime) : valid dt -> strptime_iso (iso dt) = Ok dt.
Proof.
  intros Hv. pose proof (re_iso_iso dt Hv) as H. unfold strptime_iso.
  destruct (re_iso (iso dt)) as [|[dt' rest] l]; [discriminate|].
  injection H as -> ->. cbn [String.eqb negb].
  destruct Hv as (Hy & _ & Hd & _ & _ & Hs).
  destruct (Nat.eqb_spec (year dt) 0); [lia|].
  destruct (Nat.ltb_spec (days_in_month (year dt) (month dt)) (day dt)); [lia|].
  destruct (Nat.ltb_spec 59 (second dt)); [lia | reflexivity].
Qed.

Lemma take_19_iso (dt : datetime) (rest : string) : take 19 (iso dt ++ rest) = iso dt.
Proof. reflexivity. Qed.

End TimestampFacts.

(** X10.  A timestamp of the tracker, an existing date and time written
    [YYYY-MM-DDTHH:MM:SS] and followed by anything (fraction, zone), is
    displayed as that date and time with a space for the [T]; what follows
    the first 19 characters is dropped. *)
Theorem format_date_of_iso (env : environment) (dt : Datetime.datetime) (rest : string) :
  TimestampFacts.valid dt ->
  _format_date env (TimestampFacts.iso dt ++ rest)
  = Ok (Datetime.strftime_display (strftime_pads_year env) dt).
Proof.
  intros Hv. unfold _format_date.
  rewrite TimestampFacts.take_19_iso, (TimestampFacts.strptime_iso_iso dt Hv).
  reflexivity.
Qed.

Module ParseBounds.
Import PyStr Datetime DatetimeFacts.

Lemma digit_in_range (lo hi : nat) s n r :
  In (n, r) (digit_in lo hi s) -> lo <= n <= hi /\ n <= 9.
Proof.
  destruct s as [|c s]; cbn [digit_in]; [contradiction|].
  destruct (is_digit c && (lo <=? code c - 48) && (code c - 48 <=? hi))%nat eqn:E;
    [|contradiction].
  intros [[= <- _]|[]].
  apply andb_true_iff in E as [E Hhi]. apply andb_true_iff in E as [Hd Hlo].
  apply Nat.leb_le in Hhi, Hlo. unfold is_digit in Hd.
  apply andb_true_iff in Hd as [_ Hd]. apply Nat.leb_le in Hd. lia.
Qed.

Lemma pair_of_range (a b c d : nat) s v r :
  In (v, r) (pair_of (digit_in a b) (digit_in c d) s) ->
  10 * a + c <= v <= 10 * b + d.
Proof.
  unfold pair_of. intros H.
  apply in_pbind in H as (x & s1 & Hx & H).
  apply in_pbind in H as (y & s2 & Hy & H).
  destruct H as [[= <- _]|[]].
  apply digit_in_range in Hx, Hy. lia.
Qed.

Lemma in_palt {A} (ps : list (parser A)) s (x : A * string) :
  In x (palt ps s) <-> exists p, In p ps /\ In x (p s).
Proof. unfold palt. apply in_flat_map. Qed.

Ltac alternatives H :=
  apply in_palt in H as (? & Hin & H); cbn [In] in Hin;
  repeat (destruct Hin as [<- | Hin]); [..|contradiction];
  try (apply pair_of_range in H); try (apply digit_in_range in H); try lia.

Lemma re_Y_range s v r : In (v, r) (re_Y s) -> v <= TimestampFacts.MAXYEAR.
Proof.
  unfold re_Y. intros H. rewrite TimestampFacts.MAXYEAR_eq.
  apply in_pbind in H as (a & s1 & Ha & H).
  apply in_pbind in H as (b & s2 & Hb & H).
  apply in_pbind in H as (c & s3 & Hc & H).
  apply in_pbind in H as (d & s4 & Hd & H).
  destruct H as [[= <- _]|[]].
  apply digit_in_range in Ha, Hb, Hc, Hd. lia.
Qed.

Lemma re_m_range s v r : In (v, r) (re_m s) -> 1 <= v <= 12.
Proof. unfold re_m. intros H. alternatives H. Qed.

Lemma re_d_range s v r : In (v, r) (re_d s) -> 1 <= v <= 31.
Proof.
  unfold re_d. intros H. alternatives H.
  apply in_pbind in H as ([] & s1 & _ & H). apply digit_in_range in H. lia.
Qed.

Lemma re_H_range s v r : In (v, r) (re_H s) -> v <= 23.
Proof. unfold re_H. intros H. alternatives H. Qed.

Lemma re_M_range s v r : In (v, r) (re_M s) -> v <= 59.
Proof. unfold re_M. intros H. alternatives H. Qed.

Lemma re_S_range s v r : In (v, r) (re_S s) -> v <= 61.
Proof. unfold re_S. intros H. alternatives H. Qed.

Lemma re_iso_range s dt r :
  In (dt, r) (re_iso s) ->
  year dt <= TimestampFacts.MAXYEAR /\ 1 <= month dt <= 12 /\ 1 <= day dt <= 31
  /\ hour dt <= 23 /\ minute dt <= 59 /\ second dt <= 61.
Proof.
  unfold re_iso. intros H.
  apply in_pbind in H as (y & s1 & Hy & H).
  apply in_pbind in H as ([] & s2 & _ & H).
  apply in_pbind in H as (m & s3 & Hm & H).
  apply in_pbind in H as ([] & s4 & _ & H).
  apply in_pbind in H as (d & s5 & Hd & H).
  apply in_pbind in H as ([] & s6 & _ & H).
  apply in_pbind in H as (h & s7 & Hh & H).
  apply in_pbind in H as ([] & s8 & _ & H).
  apply in_pbind in H as (mi & s9 & Hmi & H).
  apply in_pbind in H as ([] & s10 & _ & H).
  apply in_pbind in H as (sec & s11 & Hs & H).
  destruct H as [[= <- _]|[]]. cbn [year month day hour minute second].
  apply re_Y_range in Hy. apply re_m_range in Hm. apply re_d_range in Hd.
  apply re_H_range in Hh. apply re_M_range in Hmi. apply re_S_range in Hs.
  tauto.
Qed.

End ParseBounds.

Lemma strptime_iso_valid (text : string) (dt : Datetime.datetime) :
  Datetime.strptime_iso text = Ok dt -> TimestampFacts.valid dt.
Proof.
  unfold Datetime.strptime_iso.
  destruct (Datetime.re_iso text) as [|[dt' rest] l] eqn:E; [discriminate|].
  assert (Hin : In (dt', rest) (Datetime.re_iso text)) by (rewrite E; now left).
  apply ParseBounds.re_iso_range in Hin.
  destruct (negb (String.eqb rest "")); [discriminate|].
  destruct (Nat.eqb_spec (Datetime.year dt') 0); [discriminate|].
  destruct (Nat.ltb_spec (Datetime.days_in_month (Datetime.year dt') (Datetime.month dt'))
              (Datetime.day dt')); [discriminate|].
  destruct (Nat.ltb_spec 59 (Datetime.second dt')); [discriminate|].
  intros [= <-]. unfold TimestampFacts.valid. lia.
Qed.

(** X11.  [_format_date] returns its input as it is, or the display form
    of an existing date and time: year 1 to 9999, month 1 to 12, a day of
    that month in that year (29 February in leap years only), a time below
    24:00:00 with no leap second; and then the input is displayed as the
    padded ISO form of that date and time is. *)
Theorem format_date_changes_only_timestamps (env : environment) (date_str : string) :
  _format_date env date_str = Ok date_str
  \/ exists dt,
       TimestampFacts.valid dt
       /\ _format_date env date_str
          = Ok (Datetime.strftime_display (strftime_pads_year env) dt)
       /\ _format_date env (TimestampFacts.iso dt) = _format_date env date_str.
Proof.
  unfold _format_date.
  destruct (Datetime.strptime_iso (PyStr.take 19 date_str)) as [dt|e] eqn:E;
    cbn [rbind]; [right | now left].
  pose proof (strptime_iso_valid _ _ E) as Hv.
  exists dt. split; [exact Hv | split; [reflexivity|]].
  change (PyStr.take 19 (TimestampFacts.iso dt)) with (TimestampFacts.iso dt).
  now rewrite (TimestampFacts.strptime_iso_iso dt Hv).
Qed.

(** ** Listings and detail views *)

Lemma append_assoc (a b c : string) : (a ++ b) ++ c = a ++ b ++ c.
Proof. induction a as [|x a IH]; cbn; [reflexivity | now rewrite IH]. Qed.

Lemma append_nil_r (a : string) : a ++ "" = a.
Proof. induction a as [|x a IH]; cbn; [reflexivity | now rewrite IH]. Qed.

Lemma join_snoc (sep : string) (parts : list string) (last : string) :
  parts <> [] ->
  PyStr.join sep (parts ++ [last])%list = PyStr.join sep parts ++ sep ++ last.
Proof.
  unfold PyStr.join. induction parts as [|p [|q parts] IH]; intros H.
  - contradiction.
  - reflexivity.
  - cbn [List.app String.concat] in *. rewrite IH by discriminate.
    now rewrite !append_assoc.
Qed.

Lemma get_truthy_subscript (v d : json) (k : string) :
  Py.get v k = Ok d -> Py.truthy d = true -> Py.subscript v k = Ok d.
Proof.
  unfold Py.get, Py.get_default, Py.subscript.
  destruct v; try discriminate.
  destruct (Py.lookup k members); [tauto|].
  intros [= <-]. discriminate.
Qed.

Section DisplayFacts.

Variable env : environment.

(** X12.  The detail view of an issue is its block of the listing, and
    after it a [Description:] line exactly when the issue has a description
    that is not empty ([None], the empty text and a missing field show
    nothing). *)
Theorem description_line_iff_truthy (issue : json) :
  _format_issue_display env issue true
  = (block <- _format_issue_display env issue false ;;
     fields <- Py.subscript issue "fields" ;;
     description <- Py.get fields "description" ;;
     if Py.truthy description
     then Ok (block ++ Py.nl ++ label "Description:" ++ Py.str description)
     else Ok block)%result.
Proof.
  unfold _format_issue_display, field_name, field.
  destruct (Py.subscript issue "key") as [key|]; cbn [rbind]; [|reflexivity].
  destruct (Py.subscript issue "fields") as [fields|]; cbn [rbind]; [|reflexivity].
  destruct (Py.subscript fields "summary") as [summary|]; cbn [rbind]; [|reflexivity].
  destruct (Py.subscript fields "status") as [status|]; cbn [rbind]; [|reflexivity].
  destruct (Py.subscript status "name") as [status_name|]; cbn [rbind]; [|reflexivity].
  destruct (Py.subscript fields "priority") as [priority|]; cbn [rbind]; [|reflexivity].
  destruct (Py.subscript priority "name") as [priority_name|]; cbn [rbind]; [|reflexivity].
  destruct (Py.subscript fields "created") as [created_raw|]; cbn [rbind]; [|reflexivity].
  destruct (format_date_field env created_raw) as [created|]; cbn [rbind]; [|reflexivity].
  destruct (Py.subscript fields "updated") as [updated_raw|]; cbn [rbind]; [|reflexivity].
  destruct (format_date_field env updated_raw) as [updated|]; cbn [rbind]; [|reflexivity].
  destruct (Py.get fields "description") as [description|] eqn:Hd; cbn [rbind];
    [|reflexivity].
  destruct (Py.truthy description) eqn:Ht; [|reflexivity].
  rewrite (get_truthy_subscript fields description "description" Hd Ht). cbn [rbind].
  now rewrite join_snoc by discriminate.
Qed.

Lemma issue_blocks_stops (good rest : list json) (bad : json) (e : exn) :
  Forall (fun issue => exists block, _format_issue_display env issue false = Ok block) good ->
  _format_issue_display env bad false = Raise e ->
  issue_blocks env (good ++ bad :: rest) = Raise e.
Proof.
  intros Hg Hb. induction Hg as [|issue good [block Hi] _ IH]; cbn [List.app issue_blocks].
  - now rewrite Hb.
  - now rewrite Hi, IH.
Qed.

Lemma issue_blocks_length (items : list json) (blocks : list string) :
  issue_blocks env items = Ok blocks -> List.length blocks = 2 * List.length items.
Proof.
  revert blocks. induction items as [|issue items IH]; cbn [issue_blocks]; intros blocks.
  - now intros [= <-].
  - destruct (_format_issue_display env issue false); cbn [rbind]; [|discriminate].
    destruct (issue_blocks env items) as [rest|]; cbn [rbind]; [|discriminate].
    intros [= <-]. cbn [List.length]. rewrite (IH rest eq_refl). lia.
Qed.

Lemma render_listing_of_issues (members : list (string * json)) (items : list json) :
  Py.lookup "issues" members = Some (JArr items) ->
  items <> [] ->
  render_listing env (JObj members)
  = (blocks <- issue_blocks env items ;;
     Ok (PyStr.join Py.nl
           (listing_header
              (match Py.lookup "total" members with
               | Some total => total
               | None => JNum (Z.of_nat (List.length items))
               end) :: blocks)))%result.
Proof.
  intros Hi Hne. unfold render_listing, Py.get, Py.get_default.
  destruct members as [|member members]; [discriminate|].
  cbn [Py.truthy negb]. rewrite Hi. cbn [rbind Py.truthy].
  destruct items as [|issue items]; [contradiction|].
  cbn [negb Py.len Py.iterate rbind].
  now destruct (Py.lookup "total" (member :: members)).
Qed.

(** X13.  A listing is all or nothing: when one issue of the response
    cannot be rendered (a field is missing, say), [get_my_issues] returns
    the error text for that issue alone, and none of the blocks of the
    issues before it. *)
Theorem listing_is_all_or_nothing
  (natural_query : option string) (jql : string) (st st1 st2 : state)
  (members : list (string * json)) (good rest : list json) (bad : json) (e : exn) :
  select_jql env natural_query st = (Ok jql, st1) ->
  jira_jql_search env jql search_fields st1 = (Ok (JObj members), st2) ->
  Py.lookup "issues" members = Some (JArr (good ++ bad :: rest)) ->
  Forall (fun issue => exists block, _format_issue_display env issue false = Ok block) good ->
  _format_issue_display env bad false = Raise e ->
  get_my_issues env natural_query st = (Ok (fetch_error e), st2).
Proof.
  intros Hq Hs Hi Hg Hb.
  unfold get_my_issues, try_except, bind. rewrite Hq, Hs. unfold lift.
  rewrite (render_listing_of_issues members (good ++ bad :: rest) Hi)
    by (destruct good; discriminate).
  now rewrite (issue_blocks_stops good rest bad e Hg Hb).
Qed.

(** X14.  The number in [Found N issue(s):] is the [total] of the response
    as the tracker gave it, whatever the number of issues listed, and the
    number of issues listed when the response has no [total]; under the
    header come two lines' worth per issue, its block and a rule. *)
Theorem listing_header_total
  (members : list (string * json)) (items : list json) (blocks : list string) :
  Py.lookup "issues" members = Some (JArr items) ->
  items <> [] ->
  issue_blocks env items = Ok blocks ->
  render_listing env (JObj members)
  = Ok (PyStr.join Py.nl
          (listing_header
             (match Py.lookup "total" members with
              | Some total => total
              | None => JNum (Z.of_nat (List.length items))
              end) :: blocks))
  /\ List.length blocks = 2 * List.length items.
Proof.
  intros Hi Hne Hb. split; [|now apply issue_blocks_length].
  now rewrite (render_listing_of_issues members items Hi Hne), Hb.
Qed.

(** X15.  A response that is true but no object (a JSON array, a number, a
    text) is reported as an error of the listing, the [AttributeError] of
    its missing [get]. *)
Theorem listing_of_a_non_object
  (natural_query : option string) (jql : string) (st st1 st2 : state) (response : json) :
  select_jql env natural_query st = (Ok jql, st1) ->
  jira_jql_search env jql search_fields st1 = (Ok response, st2) ->
  Py.truthy response = true ->
  (forall members, response <> JObj members) ->
  get_my_issues env natural_query st
  = (Ok (fetch_error
           (AttributeError ("'" ++ Py.type_name response
                              ++ "' object has no attribute 'get'"))), st2).
Proof.
  intros Hq Hs Ht Hn.
  unfold get_my_issues, try_except, bind. rewrite Hq, Hs. unfold lift, render_listing.
  rewrite Ht. cbn [negb].
  destruct response; try reflexivity. now destruct (Hn members).
Qed.

(** X16.  An answer to the fetch that is an object without [key] (an error
    object of the tracker, say) is not taken for a missing issue: the
    detail view reports the [KeyError], [Error fetching issue details:
    'key']. *)
Theorem details_without_key
  (issue_key : string) (st : state) (member : string * json)
  (members : list (string * json)) :
  mcp_jira_mcp_get_issue env issue_key detail_fields = Ok (JObj (member :: members)) ->
  Py.lookup "key" (member :: members) = None ->
  get_issue_details env issue_key st
  = (Ok (details_error (KeyError "key")), logged st [EvGetIssue issue_key detail_fields]).
Proof.
  intros Hg Hk.
  unfold get_issue_details, try_except, bind. rewrite jira_get_issue_run, Hg.
  cbn [rbind decode]. unfold lift, render_details. cbn [Py.truthy negb].
  unfold _format_issue_display, Py.subscript. now rewrite Hk.
Qed.

End DisplayFacts.

(** ** The identifier of [details] *)

(** [sep in s] *)
Fixpoint occurs (sep s : string) : bool :=
  PyStr.startswith sep s
  || match s with
     | EmptyString => false
     | String _ s' => occurs sep s'
     end.

Lemma rev_onto_twice (s a b : string) :
  PyStr.rev_onto a (PyStr.rev_onto b s) = PyStr.rev_onto (s ++ a) b.
Proof.
  revert a b. induction s as [|c s IH]; intros a b; cbn; [reflexivity|].
  now rewrite IH.
Qed.

(** A text without the separator is its own single piece. *)
Lemma split_go_without (sep s : string) :
  occurs sep s = false ->
  forall cur, PyStr.split_go sep 0 cur s = [PyStr.rev_onto "" (PyStr.rev_onto cur s)].
Proof.
  induction s as [|c s IH]; intros Ho cur; [reflexivity|].
  cbn [occurs] in Ho. apply orb_false_iff in Ho as [Hs Ho].
  cbn [PyStr.split_go PyStr.rev_onto]. rewrite Hs. now apply IH.
Qed.

Lemma split_on_details (key : string) :
  occurs "details " key = false ->
  PyStr.split "details " ("details " ++ key) = [""; key].
Proof.
  intros Ho. unfold PyStr.split. cbn.
  rewrite (split_go_without "details " key Ho), rev_onto_twice.
  cbn. now rewrite append_nil_r.
Qed.

Lemma upper_app (a b : string) : PyStr.upper (a ++ b) = PyStr.upper a ++ PyStr.upper b.
Proof.
  induction a as [|c a IH]; cbn [PyStr.upper String.append]; [reflexivity|].
  now rewrite IH, append_assoc.
Qed.

Lemma upper_text_fixed (c : ascii) : PyStr.upper (PyStr.upper_text c) = PyStr.upper_text c.
Proof. PyStrFacts.each_char c; reflexivity. Qed.

Lemma upper_idem (s : string) : PyStr.upper (PyStr.upper s) = PyStr.upper s.
Proof.
  induction s as [|c s IH]; cbn [PyStr.upper]; [reflexivity|].
  now rewrite upper_app, upper_text_fixed, IH.
Qed.

(** X17.  On a line that reads [details ] and then a text in which
    [details ] does not occur again (and whose capitals are characters of
    the model), the issue fetched is that text, trimmed and in upper case,
    whatever the case it was typed in; it is the one call made, and the
    history is left as it was. *)
Theorem details_fetches_the_typed_key
  (env : environment) (command key : string) (st : state) :
  PyStr.strip (PyStr.lower command) = "details " ++ key ->
  occurs "details " key = false ->
  PyStr.upper_fits key = true ->
  let issue_key := PyStr.upper (PyStr.strip key) in
  PyStr.upper issue_key = issue_key
  /\ exists prints,
       snd (process_command env command st)
       = logged st (EvGetIssue issue_key detail_fields :: prints)
       /\ Forall is_print prints.
Proof.
  intros Hl Ho _ issue_key. split; [apply upper_idem|].
  unfold process_command, dispatch. rewrite Hl.
  change (PyStr.mem ("details " ++ key) ["my issues"; "show my issues"; "list issues"])
    with false.
  change (PyStr.startswith "details " ("details " ++ key)) with true. cbv iota.
  rewrite (split_on_details key Ho). cbn [nth_error]. fold issue_key.
  unfold get_issue_details, try_except, bind. rewrite jira_get_issue_run.
  destruct (rbind _ _); unfold lift, logged;
    [destruct (render_details env issue_key _)|]; cbn [snd];
    eexists; (split; [reflexivity | repeat constructor]).
Qed.

(** ** The read loop *)

Section LoopFacts.

Variable env : environment.

(** X18.  A line of nothing but whitespace is skipped by the loop: no
    command is processed, nothing is printed, the session is as before. *)
Theorem blank_line_is_skipped (typed : string) (st : state) :
  PyStr.blank typed = true ->
  Main.turn_of_loop env typed st = (Ok true, st).
Proof.
  intros H. apply PyStrFacts.strip_empty_iff in H.
  unfold Main.turn_of_loop, try_except. now rewrite H.
Qed.

Lemma normalise_strip (s : string) :
  PyStr.strip (PyStr.lower (PyStr.strip s)) = PyStr.strip (PyStr.lower s).
Proof. now rewrite <- PyStrFacts.strip_lower, PyStrFacts.strip_idem. Qed.

Lemma exit_line_not_blank (typed : string) :
  PyStr.mem (PyStr.strip (PyStr.lower typed)) ["exit"; "quit"; "bye"] = true ->
  String.eqb (PyStr.strip typed) "" = false.
Proof.
  intros H. apply String.eqb_neq. intros E.
  rewrite <- normalise_strip, E in H. discriminate.
Qed.

Lemma exit_line_ends (typed : string) (st : state) :
  PyStr.mem (PyStr.strip (PyStr.lower typed)) ["exit"; "quit"; "bye"] = true ->
  Main.turn_of_loop env typed st = (Ok false, logged st [EvPrint Main.goodbye]).
Proof.
  intros H. unfold Main.turn_of_loop, try_except.
  rewrite (exit_line_not_blank typed H). unfold bind.
  rewrite <- normalise_strip in H.
  rewrite (exit_is_silent env (PyStr.strip typed) st H).
  reflexivity.
Qed.

(** X19.  The loop ends at the first [exit], [quit] or [bye]: [Goodbye!]
    is printed and the lines typed after it are never read. *)
Theorem loop_ends_at_exit (before after : list string) (typed : string) (st : state) :
  PyStr.mem (PyStr.strip (PyStr.lower typed)) ["exit"; "quit"; "bye"] = true ->
  Main.loop env (before ++ typed :: after) st = Main.loop env (before ++ [typed]) st.
Proof.
  intros H. revert st. induction before as [|line before IH]; intros st;
    cbn [List.app Main.loop]; unfold bind.
  - now rewrite (exit_line_ends typed st H).
  - destruct (Main.turn_of_loop env line st) as [[[|]|e] st1]; [apply IH | | ]; reflexivity.
Qed.

Lemma turn_of_loop_session (typed : string) (st : state) :
  exists go_on added evs,
    Main.turn_of_loop env typed st
    = (Ok go_on,
       mk_state (conversation_history st ++ added)%list (log st ++ evs)%list)
    /\ at_most_one_exchange added.
Proof.
  unfold Main.turn_of_loop, try_except.
  destruct (String.eqb (PyStr.strip typed) "").
  { exists true, [], []. rewrite !app_nil_r. split; [now destruct st | now left]. }
  unfold bind.
  destruct (process_command_returns env (PyStr.strip typed) st) as [out Ho].
  destruct (process_command_session env (PyStr.strip typed) st)
    as (added & evs & Hs & Ha).
  destruct (process_command env (PyStr.strip typed) st) as [r st1].
  cbn [fst snd] in Ho, Hs. subst r st1.
  destruct (String.eqb out "exit"); unfold print, emit, ret;
    cbn [conversation_history log]; rewrite <- app_assoc; eauto 6.
Qed.

Lemma loop_keeps_exchanges (typed : list string) :
  forall st, paired (conversation_history st) ->
             fst (Main.loop env typed st) = Ok tt
             /\ paired (conversation_history (snd (Main.loop env typed st))).
Proof.
  induction typed as [|line typed IH]; intros st Hp; cbn [Main.loop].
  - now split.
  - unfold bind.
    destruct (turn_of_loop_session line st) as (go_on & added & evs & -> & Ha).
    assert (Hp' : paired (conversation_history st ++ added)%list).
    { apply paired_app; [exact Hp|].
      destruct Ha as [-> | (query & reply & ->)]; cbn; tauto. }
    destruct go_on; [now apply IH | now split].
Qed.

(** X20.  Through the whole of [main], whatever is typed and whatever the
    collaborators answer, the loop never raises and the history of the
    chatbot is made of exchanges: each user turn is followed by the reply
    it got. *)
Theorem main_keeps_exchanges (typed : list string) :
  fst (Main.main env typed) = Ok tt
  /\ paired (conversation_history (snd (Main.main env typed))).
Proof.
  change (Main.main env typed)
    with (Main.loop env typed (mk_state [] (map EvPrint Main.banner))).
  now apply loop_keeps_exchanges.
Qed.

End LoopFacts.

(** ** The properties at concrete sessions *)

Module MoreExamples.
Import Examples.

Definition issue_without_fields : json := JObj [("key", JStr "ABC-2")].

(** The tracker lists ABC-1 and an issue that has no fields. *)
Definition env_broken : environment :=
  mk_environment
    (fun _ => Ok "project = ABC")
    (fun _ _ => Ok (JObj [("issues", JArr [issue_abc1; issue_without_fields])]))
    (fun _ _ => Ok (JObj [("errorMessages", JArr [JStr "Issue does not exist"])]))
    no_json true.

(** The tracker answers the search with a bare array. *)
Definition env_array : environment :=
  mk_environment
    (fun _ => Ok "project = ABC")
    (fun _ _ => Ok (JArr [issue_abc1]))
    tracker_get no_json true.

Definition three_exchanges : list turn :=
  [ mk_turn user "my bugs"; mk_turn assistant "type = Bug";
    mk_turn user "open ones"; mk_turn assistant "status = Open";
    mk_turn user "newest first"; mk_turn assistant "ORDER BY created DESC" ].

Definition leap_day : Datetime.datetime := Datetime.mk_datetime 2024 2 29 23 59 59.

End MoreExamples.

Lemma process_command_exit_iff_witness :
  fst (process_command Examples.env_up " Quit " Examples.fresh) = Ok "exit"
  /\ fst (process_command Examples.env_up ("EXIT" ++ PyStr.chr 160) Examples.fresh)
     = Ok "exit"
  /\ fst (process_command Examples.env_up "exit now" Examples.fresh) <> Ok "exit".
Proof.
  split; [|split].
  - exact (proj2 (process_command_exit_iff Examples.env_up " Quit " Examples.fresh) eq_refl).
  - exact (proj2 (process_command_exit_iff Examples.env_up ("EXIT" ++ PyStr.chr 160)
                    Examples.fresh) eq_refl).
  - intros H.
    apply (proj1 (process_command_exit_iff Examples.env_up "exit now" Examples.fresh)) in H.
    discriminate H.
Defined.

Lemma help_and_exit_are_silent_witness :
  process_command Examples.env_down " HELP" Examples.seven_turns
  = (Ok _get_help, Examples.seven_turns)
  /\ process_command Examples.env_down "Bye " Examples.seven_turns
     = (Ok "exit", Examples.seven_turns).
Proof.
  split.
  - exact (proj1 (help_and_exit_are_silent Examples.env_down " HELP" Examples.seven_turns)
             eq_refl).
  - exact (proj2 (help_and_exit_are_silent Examples.env_down "Bye " Examples.seven_turns)
             eq_refl).
Defined.

Lemma blank_line_lists_my_issues_witness :
  process_command Examples.env_up "   " Examples.fresh
  = process_command Examples.env_up "my issues" Examples.fresh.
Proof. exact (blank_line_lists_my_issues Examples.env_up "   " Examples.fresh eq_refl). Defined.

Lemma search_failure_reads_as_no_issues_witness :
  get_my_issues Examples.env_offline None Examples.fresh
  = (Ok no_issues_message,
     logged Examples.fresh
       [ EvSearch DEFAULT_JQL search_fields;
         EvPrint (search_error_line
                    (Failure "name 'mcp_jira_mcp_jql_search' is not defined")) ]).
Proof.
  exact (search_failure_reads_as_no_issues Examples.env_offline None DEFAULT_JQL
           Examples.fresh Examples.fresh _ eq_refl (or_introl eq_refl)).
Defined.

Lemma generated_jql_is_searched_witness :
  (exists prints,
     log (snd (get_my_issues Examples.env_up (Some "show my bugs") Examples.fresh))
     = ([ EvChat (jql_request Examples.fresh "show my bugs");
          EvPrint (generated_line "assignee = currentUser() AND type = Bug");
          EvSearch "assignee = currentUser() AND type = Bug" search_fields ]
          ++ prints)%list
     /\ Forall is_print prints)
  /\ (exists prints,
        log (snd (get_my_issues Examples.env_edged (Some "show my bugs") Examples.fresh))
        = ([ EvChat (jql_request Examples.fresh "show my bugs");
             EvPrint (generated_line "project = ABC");
             EvSearch "project = ABC" search_fields ]
             ++ prints)%list
        /\ Forall is_print prints).
Proof.
  assert (Hne : "show my bugs" <> "") by discriminate.
  split.
  - exact (generated_jql_is_searched Examples.env_up "show my bugs"
             " assignee = currentUser() AND type = Bug " Examples.fresh Hne eq_refl).
  - exact (generated_jql_is_searched Examples.env_edged "show my bugs"
             (PyStr.chr 160 ++ "project = ABC" ++ PyStr.chr 133)
             Examples.fresh Hne eq_refl).
Defined.

Lemma process_command_keeps_exchanges_witness :
  paired (conversation_history
            (snd (process_command Examples.env_up "show my bugs"
                    (mk_state MoreExamples.three_exchanges [])))).
Proof.
  apply (process_command_keeps_exchanges Examples.env_up "show my bugs"
           (mk_state MoreExamples.three_exchanges [])).
  cbn. tauto.
Defined.

Lemma window_starts_with_a_reply_witness :
  exists reply rest,
    build_messages "sys" MoreExamples.three_exchanges "and now"
    = mk_turn system "sys" :: mk_turn assistant reply :: rest.
Proof.
  apply (window_starts_with_a_reply "sys" "and now" MoreExamples.three_exchanges).
  - cbn. tauto.
  - cbn. lia.
Defined.

Lemma leap_day_valid : TimestampFacts.valid MoreExamples.leap_day.
Proof.
  unfold TimestampFacts.valid, MoreExamples.leap_day.
  cbn [Datetime.year Datetime.month Datetime.day Datetime.hour Datetime.minute
         Datetime.second].
  rewrite TimestampFacts.MAXYEAR_eq.
  change (Datetime.days_in_month 2024 2) with 29. lia.
Defined.

Lemma format_date_of_iso_witness :
  _format_date Examples.env_up "2024-02-29T23:59:59.123+0000" = Ok "2024-02-29 23:59:59".
Proof.
  exact (format_date_of_iso Examples.env_up MoreExamples.leap_day ".123+0000"
           leap_day_valid).
Defined.


Lemma listing_is_all_or_nothing_witness :
  get_my_issues MoreExamples.env_broken None Examples.fresh
  = (Ok (fetch_error (KeyError "fields")),
     logged Examples.fresh [EvSearch DEFAULT_JQL search_fields]).
Proof.
  refine (listing_is_all_or_nothing MoreExamples.env_broken None DEFAULT_JQL
            Examples.fresh Examples.fresh _ _
            [Examples.issue_abc1] [] MoreExamples.issue_without_fields _
            eq_refl eq_refl eq_refl _ eq_refl).
  constructor; [|constructor]. eexists. reflexivity.
Defined.

Lemma listing_header_total_witness :
  render_listing Examples.env_up
    (JObj [("issues", JArr [Examples.issue_abc1]); ("total", JNum 7)])
  = (blocks <- issue_blocks Examples.env_up [Examples.issue_abc1] ;;
     Ok (PyStr.join Py.nl (listing_header (JNum 7) :: blocks)))%result.
Proof.
  assert (Hne : [Examples.issue_abc1] <> []) by discriminate.
  exact (proj1 (listing_header_total Examples.env_up
                  [("issues", JArr [Examples.issue_abc1]); ("total", JNum 7)]
                  [Examples.issue_abc1] _ eq_refl Hne eq_refl)).
Defined.

Lemma listing_of_a_non_object_witness :
  get_my_issues MoreExamples.env_array None Examples.fresh
  = (Ok (fetch_error (AttributeError "'list' object has no attribute 'get'")),
     logged Examples.fresh [EvSearch DEFAULT_JQL search_fields]).
Proof.
  refine (listing_of_a_non_object MoreExamples.env_array None DEFAULT_JQL
            Examples.fresh Examples.fresh _ (JArr [Examples.issue_abc1])
            eq_refl eq_refl eq_refl _).
  discriminate.
Defined.

Lemma details_without_key_witness :
  get_issue_details MoreExamples.env_broken "ABC-9" Examples.fresh
  = (Ok (details_error (KeyError "key")),
     logged Examples.fresh [EvGetIssue "ABC-9" detail_fields]).
Proof.
  exact (details_without_key MoreExamples.env_broken "ABC-9" Examples.fresh _ _
           eq_refl eq_refl).
Defined.

Lemma details_fetches_the_typed_key_witness :
  (exists prints,
     snd (process_command Examples.env_up " Details  abc-1 " Examples.fresh)
     = logged Examples.fresh (EvGetIssue "ABC-1" detail_fields :: prints)
     /\ Forall is_print prints)
  /\ (exists prints,
        snd (process_command Examples.env_up
               ("details caf" ++ PyStr.chr 233 ++ "-" ++ PyStr.chr 223) Examples.fresh)
        = logged Examples.fresh
            (EvGetIssue ("CAF" ++ PyStr.chr 201 ++ "-SS") detail_fields :: prints)
        /\ Forall is_print prints).
Proof.
  split.
  - exact (proj2 (details_fetches_the_typed_key Examples.env_up " Details  abc-1 " " abc-1"
                    Examples.fresh eq_refl eq_refl eq_refl)).
  - exact (proj2 (details_fetches_the_typed_key Examples.env_up
                    ("details caf" ++ PyStr.chr 233 ++ "-" ++ PyStr.chr 223)
                    ("caf" ++ PyStr.chr 233 ++ "-" ++ PyStr.chr 223)
                    Examples.fresh eq_refl eq_refl eq_refl)).
Defined.

Lemma blank_line_is_skipped_witness :
  Main.turn_of_loop Examples.env_up "   " Examples.seven_turns
  = (Ok true, Examples.seven_turns).
Proof.
  exact (blank_line_is_skipped Examples.env_up "   " Examples.seven_turns eq_refl).
Defined.

Lemma loop_ends_at_exit_witness :
  Main.loop Examples.env_up ["help"; " Quit "; "my issues"; "show my bugs"] Examples.fresh
  = Main.loop Examples.env_up ["help"; " Quit "] Examples.fresh.
Proof.
  exact (loop_ends_at_exit Examples.env_up ["help"] ["my issues"; "show my bugs"]
           " Quit " Examples.fresh eq_refl).
Defined.
